(** * md_generator: the markdown table formatter and the Keysight SMU driver

    A shallow embedding of [md_utils.py] and of the parts of
    [keysight_smu.py] that the specification talks about, together with
    the properties of the specification stated over that embedding.

    Python [str] values are modelled as [string], one [ascii] per
    character: the strings of characters with code points below 256.
    Python lists are [list], dictionaries with string keys
    [gmap string _]. *)

From Stdlib Require Import ZArith QArith Lia Ascii String List Bool.
From Stdlib Require Import Decimal DecimalString DecimalZ.
From stdpp Require Import base option list strings gmap.

Import ListNotations.
Local Open Scope string_scope.
Local Open Scope list_scope.

(** ** Python string primitives used by both files *)

Module PyStr.

(** The line feed character, as a string. *)
Definition newline : string := String "010"%char EmptyString.

(** The double quote character, as a string. *)
Definition dquote : string := String "034"%char EmptyString.

(** ['c' * n] *)
Fixpoint repeat_char (c : ascii) (n : nat) : string :=
  match n with
  | O => EmptyString
  | S k => String c (repeat_char c k)
  end.

(** [s[0:-1]]: everything but the last character; [''] stays ['']. *)
Fixpoint drop_last (s : string) : string :=
  match s with
  | EmptyString => EmptyString
  | String c EmptyString => EmptyString
  | String c rest => String c (drop_last rest)
  end.

(** [s[1:-1]] *)
Definition strip_ends (s : string) : string :=
  match s with
  | EmptyString => EmptyString
  | String _ rest => drop_last rest
  end.

(** [needle in hay] on strings. *)
Fixpoint contains (needle hay : string) : bool :=
  String.prefix needle hay ||
  match hay with
  | EmptyString => false
  | String _ rest => contains needle rest
  end.

(** [s.split(sep)] for a one-character separator: the pieces between
    the separators; a string without separator is one piece, the empty
    string included. *)
Fixpoint split_on (sep : ascii) (s : string) : list string :=
  match s with
  | EmptyString => [EmptyString]
  | String c rest =>
      if Ascii.eqb c sep then EmptyString :: split_on sep rest
      else match split_on sep rest with
           | piece :: pieces => String c piece :: pieces
           | [] => [String c EmptyString]
           end
  end.

(** [sep.join(pieces)] *)
Fixpoint join (sep : string) (pieces : list string) : string :=
  match pieces with
  | [] => EmptyString
  | [p] => p
  | p :: rest => p +:+ sep +:+ join sep rest
  end.

(** [str(n)] for a non-negative integer. *)
Definition str_of_N (n : N) : string :=
  NilZero.string_of_uint (N.to_uint n).

(** [str(z)] for an integer. *)
Definition str_of_Z (z : Z) : string :=
  NilZero.string_of_int (Z.to_int z).

(** [x] occurs in [s] as a contiguous piece. *)
Definition occurs_in (x s : string) : Prop :=
  exists pre post, s = pre +:+ x +:+ post.

Definition is_digit (c : ascii) : bool :=
  let n := nat_of_ascii c in (48 <=? n)%nat && (n <=? 57)%nat.

(** The characters [int()] skips around a number: tab, line feed,
    vertical tab, form feed, carriage return and the blank, and of the
    characters above 127 the next-line control U+0085 and the
    no-break space U+00A0. The separators U+001C..U+001F are not
    skipped. *)
Definition is_space (c : ascii) : bool :=
  let n := nat_of_ascii c in
  ((9 <=? n)%nat && (n <=? 13)%nat)
  || Nat.eqb n 32 || Nat.eqb n 133 || Nat.eqb n 160.

Fixpoint lstrip (s : string) : string :=
  match s with
  | EmptyString => EmptyString
  | String c rest => if is_space c then lstrip rest else s
  end.

Fixpoint rstrip (s : string) : string :=
  match s with
  | EmptyString => EmptyString
  | String c rest =>
      match rstrip rest with
      | EmptyString => if is_space c then EmptyString
                       else String c EmptyString
      | kept => String c kept
      end
  end.

(** The digits of an integer literal with its underscores removed:
    an underscore is accepted only between two digits. [prev] tells
    that the previous character was a digit. *)
Fixpoint literal_digits (prev : bool) (s : string) : option string :=
  match s with
  | EmptyString => if prev then Some EmptyString else None
  | String c rest =>
      if is_digit c then option_map (String c) (literal_digits true rest)
      else if Ascii.eqb c "_" then
             (if prev then literal_digits false rest else None)
      else None
  end.

Definition unsigned_literal (s : string) : option uint :=
  match literal_digits false s with
  | Some ds => NilEmpty.uint_of_string ds
  | None => None
  end.

(** [int(s)] for a string [s], base 10: blanks around the number are
    skipped, one sign is read, and the digits may have leading zeros
    and single underscores between them. [None] is the [ValueError] of
    an invalid literal. *)
Definition py_int (s : string) : option Z :=
  let body := lstrip (rstrip s) in
  match body with
  | String c rest =>
      if Ascii.eqb c "+" then
        option_map (fun d => Z.of_int (Pos d)) (unsigned_literal rest)
      else if Ascii.eqb c "-" then
        option_map (fun d => Z.of_int (Neg d)) (unsigned_literal rest)
      else
        option_map (fun d => Z.of_int (Pos d)) (unsigned_literal body)
  | EmptyString => None
  end.

Definition all_digits (s : string) : Prop :=
  forallb is_digit (list_ascii_of_string s) = true.

(** A date in the basic ISO form: eight decimal digits. *)
Definition is_yyyymmdd (s : string) : bool :=
  Nat.eqb (String.length s) 8 && forallb is_digit (list_ascii_of_string s).

(** The first character is not the digit zero. *)
Definition no_leading_zero (s : string) : bool :=
  match s with
  | EmptyString => true
  | String c _ => negb (Ascii.eqb c "0")
  end.

End PyStr.

(** ** md_utils.py *)

Module MdUtils.
Import PyStr.

(** The inner loop of lines 23-24: [pstr = pstr + str2d[i_][j_] + '|']. *)
Definition row_line (row : list string) : string :=
  fold_left (fun pstr cell => pstr +:+ cell +:+ "|") row "".

(** The inner loop of lines 29-30:
    [pstr = pstr + ''.join('-' * len(str2d[i_][k_]))]. *)
Definition dash_run (row : list string) : string :=
  fold_left (fun pstr cell => pstr +:+ repeat_char "-" (String.length cell))
            row "".

(** Lines 16-20: the per-row sum of the cell lengths (computed by the
    source, not returned). *)
Definition line_lens (str2d : list (list string)) : list nat :=
  map (fun row => fold_left (fun ll cell => ll + String.length cell) row 0)
      str2d.

(** What the function accumulates: the text block, the list of lines
    and what [print] wrote when [_print_out] is set. *)
Record acc := mkAcc {
  tablestr : string;
  lines_out : list string;
  printed : list string
}.

Definition emit (print_out : bool) (pstr : string) (a : acc) : acc :=
  {| tablestr := tablestr a +:+ drop_last pstr +:+ newline;
     lines_out := lines_out a ++ [pstr];
     printed := if print_out then printed a ++ [drop_last pstr]
                else printed a |}.

(** The body of the loop of lines 21-33 at index [i_]. *)
Definition row_step (print_out : bool) (i_ : nat) (row : list string)
    (a : acc) : acc :=
  let a1 := emit print_out (row_line row) a in
  if Nat.eqb i_ 0
  then emit print_out (dash_run row +:+ "|") a1
  else a1.

Fixpoint rows_from (print_out : bool) (i_ : nat)
    (rows : list (list string)) (a : acc) : acc :=
  match rows with
  | [] => a
  | row :: rest =>
      rows_from print_out (S i_) rest (row_step print_out i_ row a)
  end.

Definition mdTable_run (print_out : bool) (str2d : list (list string)) : acc :=
  rows_from print_out 0 str2d
    {| tablestr := ""; lines_out := []; printed := [] |}.

(** [mdTable_str(str2d)] returns [(tablestr, lines_out)]. *)
Definition mdTable_str (print_out : bool) (str2d : list (list string))
    : string * list string :=
  let a := mdTable_run print_out str2d in
  (tablestr a, lines_out a).

(** The sum of the lengths of the cells of a row. *)
Definition cells_length (row : list string) : nat :=
  foldr (fun cell n => String.length cell + n) 0 row.

(** The text of the data rows as they follow the separator. *)
Definition body_text (rows : list (list string)) : string :=
  foldr (fun row s => drop_last (row_line row) +:+ newline +:+ s) "" rows.

End MdUtils.

(** ** keysight_smu.py *)

Module Smu.
Import PyStr.

(** Python floats, [float()] and the formatting of a float are not
    computed here: the driver only moves floats around, formats them
    into commands and parses them out of replies, so these are taken
    as an interface the interpreter provides. *)
Record FloatModel (float : Type) := {
  fl_of_Q : Q -> float;               (* the float of a literal or an int *)
  fl_repr : float -> string;          (* str(x), repr(x), f"{x}" *)
  fl_parse : string -> option float;  (* float(s); None is ValueError *)
  fl_sub : float -> float -> float;
  fl_mul : float -> float -> float;
  fl_negative : float -> bool;        (* x < 0 *)
  fl_is_nan : float -> bool;          (* x != x *)
  (* x is infinite or too large in magnitude for a time in seconds
     (above about 9.2e9) *)
  fl_overflows : float -> bool;
  (* the float of a rational is a number, and one within 9e9 in
     magnitude is in the range of times *)
  fl_literal_not_nan : forall q, fl_is_nan (fl_of_Q q) = false;
  fl_literal_in_range :
    forall q,
      Qle_bool (- (9000000000 # 1)) q && Qle_bool q (9000000000 # 1) = true ->
      fl_overflows (fl_of_Q q) = false
}.
Arguments fl_of_Q {float} _ _.
Arguments fl_repr {float} _ _.
Arguments fl_parse {float} _ _.
Arguments fl_sub {float} _ _ _.
Arguments fl_mul {float} _ _ _.
Arguments fl_negative {float} _ _.
Arguments fl_is_nan {float} _ _.
Arguments fl_overflows {float} _ _.
Arguments fl_literal_not_nan {float} _ _.
Arguments fl_literal_in_range {float} _ _ _.

(** The exceptions of the driver's paths, each with its message
    ([str(ex)]). The text of the messages the interpreter and the
    libraries produce is abbreviated; the messages the driver builds
    itself are exact. *)
Inductive exn_kind :=
| ValueError | KeyError | IndexError | TypeError | AttributeError
| OverflowError | VisaIOError | Exception.

Record exn := Exn { exn_kind_of : exn_kind; exn_msg : string }.

Inductive log_level := LogInfo | LogError | LogException.

(** The [Union[str, int]] of a channel argument. *)
Inductive channel := ChanInt (z : Z) | ChanStr (s : string).

(** [str(channel)] *)
Definition channel_str (c : channel) : string :=
  match c with
  | ChanInt z => str_of_Z z
  | ChanStr s => s
  end.

(** The pyvisa resource held in [self._session]; the two attributes
    [open] sets are [None] until they are set. *)
Record Session := {
  sess_addr : string;
  write_termination : option string;
  timeout : option Z
}.

(** The attributes of a [KeysightSMU] object after [__init__] has run
    with a [hw_config]. [calDate] and [calStatus] do not exist until
    [_read_check_caldate] creates them. *)
Record SMU := {
  idns : option (list string);
  model : option string;
  serial_number : option string;
  visa_addr : option string;
  _session : option Session;
  calDate : option string;
  calStatus : option bool
}.

Definition set_idns (v : list string) (o : SMU) : SMU :=
  {| idns := Some v; model := model o; serial_number := serial_number o;
     visa_addr := visa_addr o; _session := _session o;
     calDate := calDate o; calStatus := calStatus o |}.
Definition set_model (v : string) (o : SMU) : SMU :=
  {| idns := idns o; model := Some v; serial_number := serial_number o;
     visa_addr := visa_addr o; _session := _session o;
     calDate := calDate o; calStatus := calStatus o |}.
Definition set_serial_number (v : string) (o : SMU) : SMU :=
  {| idns := idns o; model := model o; serial_number := Some v;
     visa_addr := visa_addr o; _session := _session o;
     calDate := calDate o; calStatus := calStatus o |}.
Definition set_visa_addr (v : string) (o : SMU) : SMU :=
  {| idns := idns o; model := model o; serial_number := serial_number o;
     visa_addr := Some v; _session := _session o;
     calDate := calDate o; calStatus := calStatus o |}.
Definition set_session (v : option Session) (o : SMU) : SMU :=
  {| idns := idns o; model := model o; serial_number := serial_number o;
     visa_addr := visa_addr o; _session := v;
     calDate := calDate o; calStatus := calStatus o |}.
Definition set_calDate (v : string) (o : SMU) : SMU :=
  {| idns := idns o; model := model o; serial_number := serial_number o;
     visa_addr := visa_addr o; _session := _session o;
     calDate := Some v; calStatus := calStatus o |}.
Definition set_calStatus (v : bool) (o : SMU) : SMU :=
  {| idns := idns o; model := model o; serial_number := serial_number o;
     visa_addr := visa_addr o; _session := _session o;
     calDate := calDate o; calStatus := Some v |}.

(** [str(x)] of an attribute that may be [None]. *)
Definition str_opt (x : option string) : string :=
  match x with Some s => s | None => "None" end.

(** [arr.reshape((rows, cols), order='F')] of a one-dimensional array,
    as the list of its rows: element [(i, j)] is element [i + rows*j]
    of the flat array; numpy refuses a size other than [rows*cols]. *)
Definition reshape_F {A} (rows cols : nat) (flat : list A)
    : option (list (list A)) :=
  if Nat.eqb (length flat) (rows * cols)
  then Some (map (fun i => omap (fun j => flat !! (i + rows * j)%nat)
                                (seq 0 cols))
                 (seq 0 rows))
  else None.

(** [[f(x) for x in xs]] where [f] may raise: the first failure ends
    the comprehension. *)
Fixpoint parse_all {A B} (f : A -> option B) (xs : list A)
    : option (list B) :=
  match xs with
  | [] => Some []
  | x :: rest =>
      match f x with
      | None => None
      | Some y => option_map (cons y) (parse_all f rest)
      end
  end.

Section Driver.
Context {float : Type} (F : FloatModel float).

(** What the object does to the outside, most recent first: calls
    into pyvisa with their outcome, sleeps, log records and prints. *)
Inductive event :=
| EvResourceManager (failure : option exn)
| EvListResources (res : exn + list string)
| EvOpenResource (addr : string) (failure : option exn)
| EvWrite (cmd : string) (failure : option exn)
| EvQuery (cmd : string) (res : exn + string)
| EvSessionClose (failure : option exn)
| EvSleep (seconds : float)
| EvLog (level : log_level) (msg : string)
| EvPrint (text : string).

(** The instrument, the VISA library and the clock: each answer may
    depend on everything that happened before. *)
Record Env := {
  env_resource_manager : list event -> option exn;
  env_list_resources : list event -> exn + list string;
  env_open_resource : list event -> string -> option exn;
  env_write : list event -> string -> option exn;
  env_query : list event -> string -> exn + string;
  env_close : list event -> option exn;
  env_today : list event -> string   (* now().strftime("%Y%m%d") *)
}.

Record world := { self : SMU; trace : list event }.

Definition record (e : event) (w : world) : world :=
  {| self := self w; trace := e :: trace w |}.
Definition update (f : SMU -> SMU) (w : world) : world :=
  {| self := f (self w); trace := trace w |}.

(** A method body: it ends with a value or an exception, and in
    both cases leaves a world behind. *)
Definition M (A : Type) : Type := world -> (exn + A) * world.

Definition ret {A} (a : A) : M A := fun w => (inr a, w).
Definition raise {A} (e : exn) : M A := fun w => (inl e, w).
Definition bind {A B} (c : M A) (k : A -> M B) : M B :=
  fun w => match c w with
           | (inr a, w1) => k a w1
           | (inl e, w1) => (inl e, w1)
           end.
Definition try_except {A} (c : M A) (handler : exn -> M A) : M A :=
  fun w => match c w with
           | (inr a, w1) => (inr a, w1)
           | (inl e, w1) => handler e w1
           end.
Definition try_finally {A} (c : M A) (final : M unit) : M A :=
  fun w => match c w with
           | (res, w1) =>
               match final w1 with
               | (inr _, w2) => (res, w2)
               | (inl e, w2) => (inl e, w2)
               end
           end.

Definition emit (e : event) : M unit := fun w => (inr tt, record e w).
Definition modify (f : SMU -> SMU) : M unit :=
  fun w => (inr tt, update f w).
Definition get {A} (field : SMU -> A) : M A :=
  fun w => (inr (field (self w)), w).
Definition history : M (list event) := fun w => (inr (trace w), w).
Definition lift {A} (r : exn + A) : M A := fun w => (r, w).

Notation "x <- c ;; k" := (bind c (fun x => k))
  (at level 100, c at next level, right associativity).
Notation "c ;; k" := (bind c (fun _ => k))
  (at level 100, right associativity).

Variable env : Env.

Definition no_attribute (attr : string) : exn :=
  Exn AttributeError
      ("'NoneType' object has no attribute '" +:+ attr +:+ "'").

(** [self._session.write(cmd)] *)
Definition write (cmd : string) : M unit := fun w =>
  match _session (self w) with
  | None => (inl (no_attribute "write"), w)
  | Some _ =>
      let failure := env_write env (trace w) cmd in
      let w1 := record (EvWrite cmd failure) w in
      match failure with
      | Some e => (inl e, w1)
      | None => (inr tt, w1)
      end
  end.

(** [self._session.query(cmd)] *)
Definition query (cmd : string) : M string := fun w =>
  match _session (self w) with
  | None => (inl (no_attribute "query"), w)
  | Some _ =>
      let res := env_query env (trace w) cmd in
      (res, record (EvQuery cmd res) w)
  end.

(** The exception [time.sleep(seconds)] raises, if any: [ValueError]
    for NaN, [OverflowError] for a time out of range, of either sign,
    [ValueError] for a negative time, in this order. *)
Definition sleep_error (seconds : float) : option exn :=
  if fl_is_nan F seconds
  then Some (Exn ValueError "Invalid value NaN (not a number)")
  else if fl_overflows F seconds
  then Some (Exn OverflowError "timestamp too large to convert to C _PyTime_t")
  else if fl_negative F seconds
  then Some (Exn ValueError "sleep length must be non-negative")
  else None.

(** [time.sleep(seconds)] *)
Definition sleep (seconds : float) : M unit :=
  match sleep_error seconds with
  | Some e => raise e
  | None => emit (EvSleep seconds)
  end.

Definition log (level : log_level) (msg : string) : M unit :=
  emit (EvLog level msg).
Definition print (text : string) : M unit := emit (EvPrint text).

(** The reply of the instrument that means no error. *)
Definition no_error : string := "+0" +:+ newline.

(** [err_check(self, stat, id="")], lines 387-393. *)
Definition err_check (stat : string) (id : string) : M bool :=
  if String.eqb stat no_error then ret false
  else
    m <- get model ;;
    print (id +:+ " " +:+ str_opt m) ;;
    log LogInfo ("SCPI error: " +:+ stat +:+ "   " +:+ id) ;;
    raise (Exn ValueError ("SCPI error " +:+ stat +:+ "  " +:+ id)).

(** [self.err_check(self._session.query(":SYST:ERR:CODE:ALL?"), id=id)] *)
Definition check (id : string) : M bool :=
  stat <- query ":SYST:ERR:CODE:ALL?" ;;
  err_check stat id.

(** [[float(x) for x in reply.split(",")]] *)
Definition floats_of (reply : string) : M (list float) :=
  match parse_all (fl_parse F) (split_on "," reply) with
  | Some xs => ret xs
  | None => raise (Exn ValueError "could not convert string to float")
  end.

(** [_svmi(self, channel, volts, i_limit, settle)], lines 147-182.
    The result [None] is Python's [None] of the branch that returns
    nothing. *)
Definition _svmi (chan : channel) (volts i_limit settle : float)
    : M (option (list float)) :=
  let ch := channel_str chan in
  if String.eqb ch "1" || String.eqb ch "2" then
    try_except
      (let forcev := fl_repr F volts in
       let comply := fl_repr F i_limit in
       write (":SENS" +:+ ch +:+ ":CURR:PROT " +:+ comply) ;;
       write (":SENS" +:+ ch +:+ ":REM OFF") ;;
       write (":SENS" +:+ ch +:+ ":FUNC:ON " +:+ dquote +:+ "VOLT"
                +:+ dquote +:+ "," +:+ dquote +:+ "CURR" +:+ dquote) ;;
       write (":SOUR" +:+ ch +:+ ":VOLT:LEV:IMM " +:+ forcev) ;;
       check "" ;;
       write (":SOUR" +:+ ch +:+ ":FUNC:MODE VOLT") ;;
       write (":SOUR" +:+ ch +:+ ":FUNC:SHAP DC") ;;
       write (":SOUR" +:+ ch +:+ ":VOLT:MODE FIX") ;;
       check "" ;;
       write (":SENS" +:+ ch +:+ ":CURR:DC:NPLC 5") ;;
       write (":OUTP" +:+ ch +:+ ":STAT ON") ;;
       query ":FORM:ELEM:SENS?" ;;
       check "" ;;
       write (":INIT:IMM:ACQ (@" +:+ ch +:+ ")") ;;
       sleep settle ;;
       check "" ;;
       measureds <- query (":SENS" +:+ ch +:+ ":DATA?") ;;
       meas_np <- floats_of measureds ;;
       ret (Some meas_np))
      (fun ex =>
         log LogException "Current measurement exception" ;;
         raise (Exn Exception ("ERROR: " +:+ exn_msg ex)))
  else
    log LogError "Invalid SMU Channel" ;;
    ret None.

(** Lines 334-375 of [two_channel_qst]: program the two channels,
    start the sweep and sleep for its duration. *)
Definition qst_start (v_list : list float) (aperature : float)
    : M unit :=
  write ":sour1:func:mode volt" ;;
  write ":sour2:func:mode curr" ;;
  write "FORM:ELEM:SENS VOLT,CURR" ;;
  let v_str :=
    strip_ends ("[" +:+ join ", " (map (fl_repr F) v_list) +:+ "]") in
  let i_str :=
    drop_last (fold_left (fun i_str _ => i_str +:+ "0.0,") v_list "") in
  write (":sour1:list:volt " +:+ v_str) ;;
  write ":sour1:volt:mode list" ;;
  write (":sour2:list:curr " +:+ i_str) ;;
  write ":sour2:curr:mode list" ;;
  query "SOUR1:LIST:VOLT?" ;;
  query "SOUR2:LIST:CURR?" ;;
  write ":SENS1:CURR:PROT 0.2" ;;
  write ":SENS2:VOLT:PROT 10.0" ;;
  check "ini0" ;;
  write (":SENS1:FUNC " +:+ dquote +:+ "VOLT" +:+ dquote +:+ ","
           +:+ dquote +:+ "CURR" +:+ dquote) ;;
  write (":SENS2:FUNC " +:+ dquote +:+ "VOLT" +:+ dquote +:+ ","
           +:+ dquote +:+ "CURR" +:+ dquote) ;;
  check "ini2" ;;
  let aper := fl_repr F (fl_sub F aperature (fl_of_Q F (1 # 100))) in
  write (":SENS1:CURR:APER " +:+ aper) ;;
  write (":SENS2:CURR:APER " +:+ aper) ;;
  write (":SENS1:VOLT:APER " +:+ aper) ;;
  write (":SENS2:VOLT:APER " +:+ aper) ;;
  check "ini3" ;;
  let _count := length v_list in
  write ":TRIG:SOUR TIM" ;;
  check "ini32" ;;
  write (":TRIG:TIM " +:+ fl_repr F aperature) ;;
  check "ini31" ;;
  write (":TRIG:COUNT " +:+ str_of_N (N.of_nat _count)) ;;
  check "ini4" ;;
  write ":OUTP1 ON" ;;
  write ":OUTP2 ON" ;;
  check "ini5" ;;
  write ":INIT" ;;
  check "ini6" ;;
  sleep (fl_mul F (fl_of_Q F (inject_Z (Z.of_nat _count))) aperature).

(** Lines 377-382 of [two_channel_qst]: fetch the readings of both
    channels, reshape them and return the array as its rows. *)
Definition qst_fetch (_count : nat) : M (list (list float)) :=
  reply <- query "FETC:ARR? (@1,2)" ;;
  let resp_data := split_on "," reply in
  print (str_of_N (N.of_nat (length resp_data))
           +:+ " values read for list of "
           +:+ str_of_N (N.of_nat _count)) ;;
  float_data <- floats_of reply ;;
  match reshape_F 4 (length float_data / 4) float_data with
  | None => raise (Exn ValueError "cannot reshape array")
  | Some float_data_resh =>
      check "ini4" ;;
      ret float_data_resh
  end.

(** [two_channel_qst(self, v_list, aperature)], lines 324-382. *)
Definition two_channel_qst (v_list : list float) (aperature : float)
    : M (list (list float)) :=
  qst_start v_list aperature ;;
  qst_fetch (length v_list).

(** [visa.ResourceManager()] *)
Definition resource_manager : M unit := fun w =>
  let failure := env_resource_manager env (trace w) in
  let w1 := record (EvResourceManager failure) w in
  match failure with
  | Some e => (inl e, w1)
  | None => (inr tt, w1)
  end.

(** [rm.list_resources()] *)
Definition list_resources : M (list string) := fun w =>
  let res := env_list_resources env (trace w) in
  (res, record (EvListResources res) w).

(** [self._session = rm.open_resource(addr)] *)
Definition open_resource (addr : string) : M unit := fun w =>
  let failure := env_open_resource env (trace w) addr in
  let w1 := record (EvOpenResource addr failure) w in
  match failure with
  | Some e => (inl e, w1)
  | None =>
      (inr tt,
       update (set_session
                 (Some {| sess_addr := addr; write_termination := None;
                          timeout := None |})) w1)
  end.

(** [[addr for addr in instr_list if serial in addr][0]] *)
Definition first_with_serial (serial : option string)
    (instr_list : list string) : exn + string :=
  match instr_list, serial with
  | _ :: _, None =>
      inl (Exn TypeError
             "'in <string>' requires string as left operand, not NoneType")
  | _, Some sn =>
      match List.filter (fun addr => contains sn addr) instr_list with
      | addr :: _ => inr addr
      | [] => inl (Exn IndexError "list index out of range")
      end
  | [], None => inl (Exn IndexError "list index out of range")
  end.

(** [xs[i]] *)
Definition item (xs : list string) (i : nat) : M string :=
  match xs !! i with
  | Some x => ret x
  | None => raise (Exn IndexError "list index out of range")
  end.

(** Lines 69-76 of [open]: the resource manager, the address and the
    session with its two settings. *)
Definition open_session : M unit :=
  resource_manager ;;
  va <- get visa_addr ;;
  addr <- match va with
          | Some (String c rest) => ret (String c rest)
          | _ =>
              instr_list <- list_resources ;;
              sn <- get serial_number ;;
              found <- lift (first_with_serial sn instr_list) ;;
              modify (set_visa_addr found) ;;
              ret found
          end ;;
  open_resource addr ;;
  modify (fun o => set_session
            (option_map (fun ss => {| sess_addr := sess_addr ss;
                                      write_termination := Some newline;
                                      timeout := timeout ss |})
                        (_session o)) o) ;;
  modify (fun o => set_session
            (option_map (fun ss => {| sess_addr := sess_addr ss;
                                      write_termination :=
                                        write_termination ss;
                                      timeout := Some 4000%Z |})
                        (_session o)) o).

(** Lines 79-82 and again 86-89 of [open]: reset the instrument and
    read its identity. *)
Definition identify : M unit :=
  write "*RST" ;;
  reply <- query "*IDN?" ;;
  let fields := split_on "," reply in
  modify (set_idns fields) ;;
  m <- item fields 1 ;;
  modify (set_model m) ;;
  sn <- item fields 2 ;;
  modify (set_serial_number sn).

(** The [finally] clause of lines 92-94. *)
Definition report_serial : M unit :=
  sn <- get serial_number ;;
  match sn with
  | Some EmptyString =>
      log LogError "Unable to find Keysight SMU serial number"
  | _ => ret tt
  end.

Definition connect_error : string :=
  "Error connecting to SMU - check SMU power, network connection, and serial number".

(** [open(self, retry_delay=1.0)], lines 64-102. *)
Definition open (retry_delay : float) : M unit :=
  try_except
    (open_session ;;
     try_finally
       (try_except identify
          (fun _ =>
             sleep retry_delay ;;
             try_except identify
               (fun _ =>
                  log LogException "Unable to get Keysight serial number")))
       report_serial)
    (fun ex =>
       log LogException connect_error ;;
       raise (Exn Exception connect_error)).

(** [self._session.close()] *)
Definition session_close : M unit := fun w =>
  let failure := env_close env (trace w) in
  let w1 := record (EvSessionClose failure) w in
  match failure with
  | Some e => (inl e, w1)
  | None => (inr tt, w1)
  end.

(** [close(self)], lines 104-108. *)
Definition close : M unit :=
  ss <- get _session ;;
  match ss with
  | Some _ =>
      session_close ;;
      modify (set_session None)
  | None => ret tt
  end.

(** [_read_check_caldate(self, kwargs)], lines 127-135, for a
    [kwargs] whose values are strings. *)
Definition _read_check_caldate (kwargs : gmap string string) : M unit :=
  match kwargs !! "calibration_expiration" with
  | None => raise (Exn KeyError "'calibration_expiration'")
  | Some expiration =>
      modify (set_calDate expiration) ;;
      match py_int expiration with
      | None =>
          raise (Exn ValueError "invalid literal for int() with base 10")
      | Some n =>
          let compStr := str_of_Z n in
          h <- history ;;
          let today := env_today env h in
          if String.ltb compStr today then
            modify (set_calStatus false) ;;
            log LogInfo "Smu Out of Cal"
          else
            modify (set_calStatus true)
      end
  end.

End Driver.

Arguments event float : clear implicits.
Arguments Env float : clear implicits.
Arguments world float : clear implicits.
Arguments M float A : clear implicits.

Notation "x <- c ;; k" := (bind c (fun x => k))
  (at level 100, c at next level, right associativity).
Notation "c ;; k" := (bind c (fun _ => k))
  (at level 100, right associativity).

End Smu.

(** ** MockKeysightSMU, lines 396-467: static methods that ignore
    their arguments. They are given the type of the driver's methods so
    that what they do to the outside can be stated. *)

Module MockSmu.
Import PyStr Smu.

Section Mock.
Context {float : Type} (F : FloatModel float).

Definition _get_id : M float string := ret "Mock Keysight SMU".

Definition _svmi (chan : channel) (volts iLimit settle : float)
    : M float (list float) :=
  ret [fl_of_Q F 0].

Definition smu_meas (chan : channel) (settle : float)
    : M float (float * float) :=
  let V := fl_of_Q F 0 in
  let I := fl_of_Q F 0 in
  ret (V, I).

Definition source_dci (chan : channel) (amps v_comply : float)
    : M float float :=
  ret (fl_of_Q F 0).

Definition source_dcv (chan : channel) (volts comply : float)
    : M float float :=
  ret (fl_of_Q F 0).

Definition initsv_vidaq (chan : channel) (curr_range : option float)
    (four_wire : bool) : M float string :=
  let stb1 := "Test STB" in
  ret stb1.

Definition fetch_vi (chan : channel)
    : M float (list float * list float) :=
  let npV := [fl_of_Q F 0] in
  let npI := [fl_of_Q F 0] in
  ret (npV, npI).

Definition err_check (stat : string) (id : string) : M float bool :=
  ret false.

End Mock.
End MockSmu.

(** ** Concrete objects and instruments on which the driver is run *)

Module Bench.
Import PyStr Smu.

(** The integer part of a rational. *)
Definition whole_of_Q (q : Q) : Z := (Qnum q / Zpos (Qden q))%Z.

(** A whole number of seconds is out of the range of times above
    9223372036 in magnitude. *)
Definition whole_overflows (z : Z) : bool := (9223372036 <? Z.abs z)%Z.

Definition whole_in_range (q : Q) :
  Qle_bool (- (9000000000 # 1)) q && Qle_bool q (9000000000 # 1) = true ->
  whole_overflows (whole_of_Q q) = false.
Proof.
  intros [Hlo Hhi]%andb_true_iff.
  apply Qle_bool_iff in Hlo, Hhi. unfold Qle in Hlo, Hhi. simpl in Hlo, Hhi.
  unfold whole_overflows, whole_of_Q. apply Z.ltb_ge.
  destruct q as [n d]. simpl in *.
  assert (Hd : (0 < Z.pos d)%Z) by lia.
  assert (H1 : (-9000000000 <= n / Z.pos d)%Z)
    by (apply Z.div_le_lower_bound; lia).
  assert (H2 : (n / Z.pos d <= 9000000000)%Z)
    by (apply Z.div_le_upper_bound; lia).
  lia.
Qed.

(** A float model that only has the integers: enough to run the
    driver on replies made of whole numbers. *)
Definition whole : FloatModel Z :=
  {| fl_of_Q := whole_of_Q;
     fl_repr := str_of_Z;
     fl_parse := py_int;
     fl_sub := Z.sub;
     fl_mul := Z.mul;
     fl_negative := fun z => (z <? 0)%Z;
     fl_is_nan := fun _ => false;
     fl_overflows := whole_overflows;
     fl_literal_not_nan := fun _ => eq_refl;
     fl_literal_in_range := whole_in_range |}.

(** An object as [__init__] leaves it, with the values of [CONFIG_SEED]. *)
Definition seed_smu : SMU :=
  {| idns := None;
     model := Some "B2902A";
     serial_number := Some "MY51144607";
     visa_addr := Some "USB0::0x0957::0x8C18::MY51144607::INSTR";
     _session := None;
     calDate := None;
     calStatus := None |}.

Definition seed_session : Session :=
  {| sess_addr := "USB0::0x0957::0x8C18::MY51144607::INSTR";
     write_termination := Some newline;
     timeout := Some 4000%Z |}.

(** The same object with its session open. *)
Definition open_smu : SMU := set_session (Some seed_session) seed_smu.

Definition start (o : SMU) : world Z := {| self := o; trace := [] |}.

(** The error of a VISA call that times out. *)
Definition tmo : exn := Exn VisaIOError "VI_ERROR_TMO".

(** An instrument that accepts every command, reports no error,
    answers [reply] to every other query, on the day [today]. *)
Definition healthy (reply today : string) : Env Z :=
  {| env_resource_manager := fun _ => None;
     env_list_resources := fun _ => inr [];
     env_open_resource := fun _ _ => None;
     env_write := fun _ _ => None;
     env_query := fun _ cmd =>
       if String.eqb cmd ":SYST:ERR:CODE:ALL?" then inr no_error
       else inr reply;
     env_close := fun _ => None;
     env_today := fun _ => today |}.

(** An instrument whose session opens but which never takes a
    command. *)
Definition silent : Env Z :=
  {| env_resource_manager := fun _ => None;
     env_list_resources := fun _ => inr [];
     env_open_resource := fun _ _ => None;
     env_write := fun _ _ => Some tmo;
     env_query := fun _ _ => inl tmo;
     env_close := fun _ => None;
     env_today := fun _ => "20210101" |}.

(** An instrument that misses the first reset and takes the second:
    a write fails as long as nothing was slept. *)
Definition slow_start : Env Z :=
  {| env_resource_manager := fun _ => None;
     env_list_resources := fun _ => inr [];
     env_open_resource := fun _ _ => None;
     env_write := fun h _ =>
       if existsb (fun e => match e with EvSleep _ => true | _ => false end) h
       then None else Some tmo;
     env_query := fun _ _ => inr "Keysight Technologies,B2902A,MY51144607,3.4";
     env_close := fun _ => None;
     env_today := fun _ => "20210101" |}.

End Bench.

(** ** keysight_smu.py: the rest of the driver *)

Module SmuOps.
Import PyStr Smu.

(** The attributes [trig_time], [trig_count] and [aper] that
    [__init__] sets and [initsv_vidaq] reads. *)
Record ScanSettings (float : Type) := {
  trig_time : float;
  trig_count : Z;
  aper : float
}.
Arguments trig_time {float} _.
Arguments trig_count {float} _.
Arguments aper {float} _.

(** The keyword arguments [__init__] looks at. *)
Record InitArgs := {
  hw_config : option (gmap string (gmap string string));
  unique_identifier : option string
}.

(** The attributes of the object when [__init__] has passed line 55. *)
Definition blank_smu : SMU :=
  {| idns := None; model := None; serial_number := None; visa_addr := None;
     _session := None; calDate := None; calStatus := None |}.

(** The commands written to the session, oldest first. *)
Fixpoint written {float} (t : list (event float)) : list string :=
  match t with
  | [] => []
  | EvWrite cmd _ :: older => written older ++ [cmd]
  | _ :: older => written older
  end.

(** The calls into the VISA library: none of these events. *)
Definition is_io {float} (e : event float) : bool :=
  match e with
  | EvSleep _ | EvLog _ _ | EvPrint _ => false
  | _ => true
  end.

Section Ops.
Context {float : Type} (F : FloatModel float).

(** [bool(x)] of a float: [x != 0]. *)
Variable fl_nonzero : float -> bool.

(** What [__init__] leaves: an object without any attribute (the early
    return of line 44), an exception out of the constructor, or the
    object with its name, its scan settings and what was logged and
    printed. *)
Inductive constructed :=
| Bare (logged : list (event float))
| Failed (e : exn)
| Ready (instr_name : string) (scan : ScanSettings float) (w : world float).

(** [d[key]] *)
Definition lookup_key {V} (d : gmap string V) (key : string) : M float V :=
  match d !! key with
  | Some v => ret v
  | None => raise (Exn KeyError ("'" +:+ key +:+ "'"))
  end.

(** [try: c except KeyError as e: handler(e)] *)
Definition try_except_KeyError {A} (c : M float A) (handler : exn -> M float A)
    : M float A :=
  fun w => match c w with
           | (inl e, w1) =>
               match exn_kind_of e with
               | KeyError => handler e w1
               | _ => (inl e, w1)
               end
           | (inr a, w1) => (inr a, w1)
           end.

(** [for x in xs: body(x)] *)
Fixpoint for_each {A} (body : A -> M float unit) (xs : list A) : M float unit :=
  match xs with
  | [] => ret tt
  | x :: rest => body x ;; for_each body rest
  end.

(** [_read_instr(self, hw_config)], lines 114-125. *)
Definition _read_instr (hw_config : gmap string string) : M float unit :=
  try_except_KeyError
    (match hw_config !! "visa_addr" with
     | Some addr => modify (set_visa_addr addr)
     | None =>
         match hw_config !! "ip_address" with
         | Some ip =>
             modify (set_visa_addr ("TCPIP0::" +:+ ip +:+ "::inst0::INSTR"))
         | None => ret tt
         end
     end ;;
     sn <- lookup_key hw_config "serial_number" ;;
     modify (set_serial_number sn) ;;
     m <- lookup_key hw_config "model" ;;
     modify (set_model m))
    (fun e => log LogError ("Missing " +:+ exn_msg e +:+ " for KeysightSMU")).

Definition default_scan : ScanSettings float :=
  {| trig_time := fl_of_Q F (1 # 100);
     trig_count := 60;
     aper := fl_of_Q F (5 # 1000) |}.

(** [__init__(self, **kwargs)], lines 36-62. *)
Definition __init__ (kwargs : InitArgs) : constructed :=
  match hw_config kwargs with
  | None => Bare [EvLog LogError "No instrument info for KeysightSMU"]
  | Some hw =>
      match unique_identifier kwargs with
      | None => Failed (Exn KeyError "'unique_identifier'")
      | Some instr_name =>
          let w0 := {| self := blank_smu; trace := [] |} in
          let run :=
            try_except
              (cfg <- lookup_key hw instr_name ;;
               _read_instr cfg)
              (fun ex =>
                 print ("error connecting to Source Measure Unit:"
                          +:+ newline +:+ " " +:+ exn_msg ex +:+ newline
                          +:+ " check power and USB connection")) in
          Ready instr_name default_scan (snd (run w0))
      end
  end.

(** [_get_id(self)], lines 110-112: [self.idns.join(",")], on an
    [idns] that is [None] or a list. *)
Definition _get_id : M float string :=
  ids <- get idns ;;
  match ids with
  | None =>
      raise (Exn AttributeError "'NoneType' object has no attribute 'join'")
  | Some _ =>
      raise (Exn AttributeError "'list' object has no attribute 'join'")
  end.

Variable env : Env float.

(** [float(reply)] *)
Definition float_of (reply : string) : M float float :=
  match fl_parse F reply with
  | Some x => ret x
  | None => raise (Exn ValueError "could not convert string to float")
  end.

(** [channel_off(self, channel)], lines 262-266. *)
Definition channel_off (chan : channel) : M float unit :=
  let ch := channel_str chan in
  write env (":OUTP" +:+ ch +:+ ":STAT OFF") ;;
  sleep F (fl_of_Q F (25 # 100)) ;;
  check env "channel_off" ;;
  ret tt.

(** [reset(self)], lines 137-142. *)
Definition reset : M float unit :=
  ss <- get _session ;;
  match ss with
  | Some _ =>
      for_each channel_off [ChanInt 1; ChanInt 2] ;;
      write env "*RST"
  | None => ret tt
  end.

(** [smu_meas(self, channel, settle, curr_range=None, four_wire=False,
    aper_val=None, auto_aper=False)], lines 185-213. *)
Definition smu_meas (chan : channel) (settle : float)
    (curr_range : option float) (four_wire : bool)
    (aper_val : option float) (auto_aper : bool) : M float (float * float) :=
  let ch := channel_str chan in
  (if four_wire
   then write env ("SENS" +:+ ch +:+ ":REM "
                     +:+ (if four_wire then "1" else "0"))
   else ret tt) ;;
  match curr_range with
  | Some r =>
      if fl_nonzero r
      then write env (":SENS" +:+ ch +:+ ":CURR:DC:RANG:UPP " +:+ fl_repr F r)
      else ret tt
  | None => ret tt
  end ;;
  (if auto_aper
   then write env (":SENS" +:+ ch +:+ ":CURR:DC:APER:AUTO 1")
   else match aper_val with
        | Some a =>
            if fl_nonzero a
            then write env (":SENS" +:+ ch +:+ ":CURR:DC:APER " +:+ fl_repr F a)
            else ret tt
        | None => ret tt
        end) ;;
  sleep F settle ;;
  V <- query env (":MEAS:VOLT? (@" +:+ ch +:+ ")") ;;
  I <- query env (":MEAS:CURR? (@" +:+ ch +:+ ")") ;;
  V <- float_of V ;;
  I <- float_of I ;;
  ret (V, I).

(** [source_dci(self, channel, amps, v_comply)], lines 216-237. *)
Definition source_dci (chan : channel) (amps v_comply : float)
    : M float (float * float) :=
  let ch := channel_str chan in
  let forcei := fl_repr F amps in
  write env (":SOUR" +:+ ch +:+ ":FUNC:MODE  CURR") ;;
  write env (":SOUR" +:+ ch +:+ ":CURR:LEV:IMM " +:+ forcei) ;;
  write env (":SOUR" +:+ ch +:+ ":FUNC:SHAP DC") ;;
  write env (":SOUR" +:+ ch +:+ ":VOLT:MODE FIX") ;;
  write env (":SENS" +:+ ch +:+ ":VOLT:PROT " +:+ fl_repr F v_comply) ;;
  query env ":SYST:ERR:CODE:ALL?" ;;
  write env (":OUTP" +:+ ch +:+ ":STAT ON") ;;
  write env (":INIT:IMM:TRAN (@" +:+ ch +:+ ")") ;;
  query env ":SYST:ERR:CODE:ALL?" ;;
  sleep F (fl_of_Q F (5 # 100)) ;;
  check env "source_dc1" ;;
  smu_meas (ChanStr ch) (fl_of_Q F (2 # 10)) None false None false.

(** [source_dcv(self, channel, volts, comply)], lines 239-260. *)
Definition source_dcv (chan : channel) (volts comply : float)
    : M float (float * float) :=
  let ch := channel_str chan in
  let forcev := fl_repr F volts in
  write env (":SOUR" +:+ ch +:+ ":FUNC:MODE  VOLT") ;;
  write env (":SOUR" +:+ ch +:+ ":VOLT:LEV:IMM " +:+ forcev) ;;
  write env (":SOUR" +:+ ch +:+ ":FUNC:SHAP DC") ;;
  check env "source_dcv_0" ;;
  write env (":SOUR" +:+ ch +:+ ":VOLT:MODE FIX") ;;
  write env (":SENS" +:+ ch +:+ ":CURR:PROT " +:+ fl_repr F comply) ;;
  write env (":OUTP" +:+ ch +:+ ":STAT ON") ;;
  write env (":INIT:IMM:TRAN (@" +:+ ch +:+ ")") ;;
  sleep F (fl_of_Q F (25 # 100)) ;;
  check env "source_dcv" ;;
  smu_meas (ChanStr ch) (fl_of_Q F (2 # 10)) None false None false.

(** [initsv_vidaq(self, channel, curr_range=None, four_wire=False)],
    lines 269-303, on an object whose scan attributes are [scan]. *)
Definition initsv_vidaq (scan : ScanSettings float) (chan : channel)
    (curr_range : option float) (four_wire : bool) : M float string :=
  let ch := channel_str chan in
  check env ("init_daq0_ch" +:+ ch) ;;
  check env ("init_daq1_ch" +:+ ch) ;;
  write env (":SENS" +:+ ch +:+ ":CURR:APER " +:+ fl_repr F (aper scan)) ;;
  write env (":SENS" +:+ ch +:+ ":REM OFF") ;;
  (if four_wire then
     r1 <- query env (":SENS" +:+ ch +:+ ":REM?") ;;
     print ("4-wire enabled = " +:+ r1) ;;
     write env ("SENS" +:+ ch +:+ ":REM "
                  +:+ (if four_wire then "1" else "0")) ;;
     r2 <- query env (":SENS" +:+ ch +:+ ":REM?") ;;
     print ("4-wire enabled = " +:+ r2)
   else ret tt) ;;
  match curr_range with
  | Some r =>
      if fl_nonzero r then
        write env (":SENS" +:+ ch +:+ ":CURR:DC:RANG:UPP " +:+ fl_repr F r) ;;
        r3 <- query env (":SENS" +:+ ch +:+ ":CURR:DC:RANG:UPP?") ;;
        print ("range = " +:+ r3)
      else write env (":SENS" +:+ ch +:+ ":CURR:RANG:AUTO ON")
  | None => write env (":SENS" +:+ ch +:+ ":CURR:RANG:AUTO ON")
  end ;;
  write env (":SENS" +:+ ch +:+ ":CURR:APER " +:+ fl_repr F (aper scan)) ;;
  write env (":TRIG" +:+ ch +:+ ":ACQ:SOUR TIM") ;;
  check env ("init_daq2_ch" +:+ ch) ;;
  write env (":TRIG" +:+ ch +:+ ":ACQ:TIM " +:+ fl_repr F (trig_time scan)) ;;
  write env (":TRIG" +:+ ch +:+ ":ACQ:COUN " +:+ str_of_Z (trig_count scan)) ;;
  check env ("init_daq3_ch" +:+ ch) ;;
  write env (":OUTP" +:+ ch +:+ ":STAT ON") ;;
  log LogInfo ("starting acq of " +:+ str_of_Z (trig_count scan)
                 +:+ " rdgs of V & I every "
                 +:+ fl_repr F (trig_time scan) +:+ " seconds") ;;
  write env (":INIT:ACQ (@" +:+ ch +:+ ")") ;;
  check env ("init_daq4_ch" +:+ ch) ;;
  stb1 <- query env "*STB?" ;;
  ret stb1.

(** [fetch_vi(self, channel)], lines 306-322. *)
Definition fetch_vi (chan : channel) : M float (list float * list float) :=
  let ch := channel_str chan in
  measureds <- query env (":FETC:ARR:CURR? (@" +:+ ch +:+ ")") ;;
  check env "fetch1" ;;
  npI <- floats_of F measureds ;;
  sourceVals <- query env (":FETC:ARR:VOLT? (@" +:+ ch +:+ ")") ;;
  npV <- floats_of F sourceVals ;;
  check env "fetch2'" ;;
  ret (npV, npI).

(** [err_query(self)], lines 384-385. *)
Definition err_query : M float string := query env ":SYST:ERR:CODE:ALL?".

End Ops.

(** An instrument that takes every command. *)
Definition accepts {float} (env : Env float) : Prop :=
  forall h cmd, env_write env h cmd = None.

(** An instrument that answers [reply] to the query [cmd], whatever
    happened before. *)
Definition answers {float} (env : Env float) (cmd reply : string) : Prop :=
  forall h, env_query env h cmd = inr reply.

(** An instrument whose error queue is always empty. *)
Definition no_fault {float} (env : Env float) : Prop :=
  answers env ":SYST:ERR:CODE:ALL?" no_error.

End SmuOps.

(** ** More instruments *)

Module Rig.
Import PyStr Smu Bench.

(** An instrument that takes every command, reports the status
    [status] and answers [reply] to every other query. *)
Definition instrument (status reply : string) : Env Z :=
  {| env_resource_manager := fun _ => None;
     env_list_resources := fun _ => inr [];
     env_open_resource := fun _ _ => None;
     env_write := fun _ _ => None;
     env_query := fun _ cmd =>
       if String.eqb cmd ":SYST:ERR:CODE:ALL?" then inr status
       else inr reply;
     env_close := fun _ => None;
     env_today := fun _ => "20210101" |}.

(** The same on a bus that lists [resources]. *)
Definition bus (resources : list string) (reply : string) : Env Z :=
  {| env_resource_manager := fun _ => None;
     env_list_resources := fun _ => inr resources;
     env_open_resource := fun _ _ => None;
     env_write := fun _ _ => None;
     env_query := fun _ _ => inr reply;
     env_close := fun _ => None;
     env_today := fun _ => "20210101" |}.

(** An instrument that reports no error, answers [currents] to the
    fetch of the currents of channel 1 and [voltages] to every other
    query. *)
Definition scope (currents voltages : string) : Env Z :=
  {| env_resource_manager := fun _ => None;
     env_list_resources := fun _ => inr [];
     env_open_resource := fun _ _ => None;
     env_write := fun _ _ => None;
     env_query := fun _ cmd =>
       if String.eqb cmd ":SYST:ERR:CODE:ALL?" then inr no_error
       else if String.eqb cmd ":FETC:ARR:CURR? (@1)" then inr currents
       else inr voltages;
     env_close := fun _ => None;
     env_today := fun _ => "20210101" |}.

(** [bool(x)] in the integer float model. *)
Definition whole_nonzero (z : Z) : bool := negb (z =? 0)%Z.

(** An object that knows its serial number but has no address. *)
Definition unaddressed : SMU :=
  {| idns := None;
     model := Some "B2902A";
     serial_number := Some "MY51144607";
     visa_addr := None;
     _session := None;
     calDate := None;
     calStatus := None |}.

(** The configuration of [smu_test], lines 478-481. *)
Definition smu_1 : gmap string string :=
  {[ "visa_addr" := "TCPIP0::192.168.50.4::INSTR";
     "serial_number" := "MY59002082";
     "model" := "E2902" ]}.

(** A status other than the no-error reply. *)
Definition undefined_header : string := "-113" +:+ newline.

(** The reply of a B2902A to [*IDN?]. *)
Definition idn_reply : string :=
  "Keysight Technologies,B2902A,MY51144607,3.4".

End Rig.

(** ** Views used to state properties *)

Module View.
Import PyStr.

(** The text made of the given lines, each without its last character
    and followed by a line feed. *)
Definition text_of_lines (lines : list string) : string :=
  foldr (fun line text => drop_last line +:+ newline +:+ text) "" lines.

(** The last character of a string is a bar. *)
Definition ends_with_bar (line : string) : Prop :=
  exists body, line = body +:+ "|".

End View.

(** * Properties *)

(** ** Strings *)

Module PyStrFacts.
Import PyStr.

Lemma app_cons (x : ascii) (a b : string) :
  String x a +:+ b = String x (a +:+ b).
Proof. reflexivity. Qed.

Lemma app_empty_l (a : string) : "" +:+ a = a.
Proof. reflexivity. Qed.

Lemma app_assoc (a b c : string) : (a +:+ b) +:+ c = a +:+ (b +:+ c).
Proof.
  induction a as [|x a IH]; [reflexivity|].
  now rewrite !app_cons, IH.
Qed.

Lemma app_empty_r (a : string) : a +:+ "" = a.
Proof.
  induction a as [|x a IH]; [reflexivity|].
  now rewrite app_cons, IH.
Qed.

Lemma length_app (a b : string) :
  String.length (a +:+ b) = String.length a + String.length b.
Proof.
  induction a as [|x a IH]; [reflexivity|].
  rewrite app_cons. simpl. now rewrite IH.
Qed.

Lemma length_repeat_char (c : ascii) (n : nat) :
  String.length (repeat_char c n) = n.
Proof. induction n as [|n IH]; simpl; [reflexivity | now rewrite IH]. Qed.

Lemma repeat_char_add (c : ascii) (n m : nat) :
  repeat_char c (n + m) = repeat_char c n +:+ repeat_char c m.
Proof.
  induction n as [|n IH]; [reflexivity|].
  simpl. now rewrite app_cons, IH.
Qed.

(** Dropping the last character undoes appending one. *)
Lemma drop_last_snoc (a : string) (c : ascii) :
  drop_last (a +:+ String c "") = a.
Proof.
  induction a as [|x a IH]; [reflexivity|].
  rewrite app_cons. simpl. rewrite IH.
  destruct a; reflexivity.
Qed.

Lemma occurs_in_middle (pre x post : string) :
  occurs_in x (pre +:+ x +:+ post).
Proof. exists pre, post. reflexivity. Qed.

Lemma occurs_in_end (pre x : string) : occurs_in x (pre +:+ x).
Proof. exists pre, "". now rewrite app_empty_r. Qed.

End PyStrFacts.

(** ** md_utils.py *)

Module MdUtilsFacts.
Import PyStr PyStrFacts MdUtils.

Lemma dash_run_from (row : list string) (pstr : string) :
  fold_left (fun pstr cell => pstr +:+ repeat_char "-" (String.length cell))
            row pstr
  = pstr +:+ repeat_char "-" (cells_length row).
Proof.
  revert pstr. induction row as [|cell row IH]; intros pstr; simpl.
  - now rewrite app_empty_r.
  - rewrite IH, app_assoc, repeat_char_add. reflexivity.
Qed.

(** The dashes under the header: one per character of its cells. *)
Lemma dash_run_spec (row : list string) :
  dash_run row = repeat_char "-" (cells_length row).
Proof. unfold dash_run. now rewrite dash_run_from. Qed.

Lemma line_len_from (row : list string) (ll : nat) :
  fold_left (fun ll cell => ll + String.length cell) row ll
  = ll + cells_length row.
Proof.
  revert ll. induction row as [|cell row IH]; intros ll; simpl.
  - lia.
  - rewrite IH. lia.
Qed.

(** After the first row the loop only appends one line per row. *)
Lemma rows_from_S (print_out : bool) (i_ : nat) (rows : list (list string))
    (a : acc) :
  tablestr (rows_from print_out (S i_) rows a)
    = tablestr a +:+ body_text rows
  /\ lines_out (rows_from print_out (S i_) rows a)
    = lines_out a ++ map row_line rows.
Proof.
  revert i_ a. induction rows as [|row rows IH]; intros i_ a; simpl.
  - now rewrite app_empty_r, app_nil_r.
  - destruct (IH (S i_) (row_step print_out (S i_) row a)) as [Ht Hl].
    rewrite Ht, Hl. unfold row_step; simpl.
    rewrite !app_assoc, <- List.app_assoc. split; reflexivity.
Qed.

(** The spec's example: [[["a","bb"],["ccc","d"]]]. *)
Example mdTable_str_example :
  mdTable_str false [["a"; "bb"]; ["ccc"; "d"]]
  = ("a|bb" +:+ newline +:+ "---" +:+ newline +:+ "ccc|d" +:+ newline,
     ["a|bb|"; "---|"; "ccc|d|"]).
Proof. reflexivity. Qed.

(** C7: for a matrix with a header row and any further rows, the lines
    returned are the header line, then the separator, then one line
    per further row, so one more than the rows of the matrix; the
    separator is one dash per character of the header's cells (its
    length in the text block is the sum of the lengths of the header's
    cells, the figure the source keeps in [line_lens]), followed in
    the list of lines by the bar that ends every line. *)
Theorem mdTable_str_separator (print_out : bool) (header : list string)
    (rows : list (list string)) :
  let dashes := repeat_char "-" (cells_length header) in
  mdTable_str print_out (header :: rows)
  = (drop_last (row_line header) +:+ newline +:+ dashes +:+ newline
       +:+ body_text rows,
     row_line header :: (dashes +:+ "|") :: map row_line rows)
  /\ String.length dashes = cells_length header
  /\ line_lens (header :: rows) !! 0%nat = Some (String.length dashes)
  /\ length (snd (mdTable_str print_out (header :: rows)))
     = S (length (header :: rows)).
Proof.
  intros dashes.
  assert (Hrun : mdTable_str print_out (header :: rows)
    = (drop_last (row_line header) +:+ newline +:+ dashes +:+ newline
         +:+ body_text rows,
       row_line header :: (dashes +:+ "|") :: map row_line rows)).
  { unfold mdTable_str, mdTable_run. simpl rows_from.
    destruct (rows_from_S print_out 0 rows
                (row_step print_out 0 header
                   {| tablestr := ""; lines_out := []; printed := [] |}))
      as [Ht Hl].
    rewrite Ht, Hl. unfold row_step, emit; simpl.
    rewrite dash_run_spec. fold dashes.
    rewrite (drop_last_snoc dashes "|").
    rewrite app_empty_l, !app_assoc. reflexivity. }
  split; [exact Hrun|].
  split; [apply length_repeat_char|].
  split.
  - unfold dashes. rewrite length_repeat_char. simpl.
    now rewrite line_len_from.
  - rewrite Hrun. simpl. now rewrite length_map.
Qed.

(** C9: the matrix without rows gives the empty text and no line. *)
Theorem mdTable_str_empty (print_out : bool) :
  mdTable_str print_out [] = ("", []).
Proof. reflexivity. Qed.

End MdUtilsFacts.

(** ** keysight_smu.py: the fault check, [_svmi], [close], the mock *)

Module SmuFacts.
Import PyStr PyStrFacts Smu.

Section WithInstrument.
Context (float : Type) (F : FloatModel float) (env : Env float).

(** The fault check leaves the object alone: it only prints and
    logs before it raises. *)
Lemma err_check_fault (stat id : string) (w : world float) :
  stat <> no_error ->
  err_check stat id w
  = (inl (Exn ValueError ("SCPI error " +:+ stat +:+ "  " +:+ id)),
     record (EvLog LogInfo ("SCPI error: " +:+ stat +:+ "   " +:+ id))
       (record (EvPrint (id +:+ " " +:+ str_opt (model (self w)))) w)).
Proof.
  intros Hstat. unfold err_check.
  destruct (String.eqb_spec stat no_error) as [Heq|_]; [contradiction|].
  reflexivity.
Qed.

(** C1, as the code has it: on the status ["+0"] followed by a line
    feed, the reply of the instrument that reports no error, the
    fault check returns [False], raises nothing and leaves no trace. *)
Theorem err_check_no_error (id : string) (w : world float) :
  no_error = String "+" (String "0" (String "010" ""))
  /\ err_check no_error id w = (inr false, w).
Proof. split; reflexivity. Qed.

(** C2, as the code has it: on every status other than ["+0"]
    followed by a line feed, the no-error reply, the fault check
    raises an error whose message holds the status and the tag. *)
Theorem err_check_raises (stat id : string) (w : world float) :
  stat <> no_error ->
  exists msg w',
    err_check stat id w = (inl (Exn ValueError msg), w')
    /\ occurs_in stat msg
    /\ occurs_in id msg
    /\ self w' = self w.
Proof.
  intros Hstat.
  eexists _, _. split; [apply err_check_fault, Hstat|].
  split; [apply occurs_in_middle|].
  split; [|reflexivity].
  rewrite <- !app_assoc. apply occurs_in_end.
Qed.

(** C10: a channel whose text is neither ["1"] nor ["2"] makes
    [_svmi] log an error and return [None]; nothing is sent to the
    session and nothing is raised. *)
Theorem svmi_invalid_channel (chan : channel)
    (volts i_limit settle : float) (w : world float) :
  channel_str chan <> "1" ->
  channel_str chan <> "2" ->
  _svmi F env chan volts i_limit settle w
  = (inr None, record (EvLog LogError "Invalid SMU Channel") w).
Proof.
  intros H1 H2. unfold _svmi.
  destruct (String.eqb_spec (channel_str chan) "1") as [E|_];
    [contradiction|].
  destruct (String.eqb_spec (channel_str chan) "2") as [E|_];
    [contradiction|].
  reflexivity.
Qed.

(** [close] on an object without session. *)
Lemma close_closed (w : world float) :
  _session (self w) = None -> close env w = (inr tt, w).
Proof. intros H. unfold close, bind, get. now rewrite H. Qed.

(** [close] on an object with a session that the library closes. *)
Lemma close_open (w : world float) (ss : Session) :
  _session (self w) = Some ss ->
  env_close env (trace w) = None ->
  close env w
  = (inr tt, update (set_session None) (record (EvSessionClose None) w)).
Proof.
  intros H Hc. unfold close, bind, get, session_close, modify.
  rewrite H. simpl. now rewrite Hc.
Qed.

(** A [close] that returns leaves no session behind. *)
Lemma close_returns_closed (w w1 : world float) :
  close env w = (inr tt, w1) -> _session (self w1) = None.
Proof.
  unfold close, bind, get, session_close, modify.
  destruct (_session (self w)) as [ss|] eqn:H; simpl.
  - destruct (env_close env (trace w)); [discriminate|].
    intros [= <-]. reflexivity.
  - intros [= <-]. exact H.
Qed.

(** C8: [close] releases an open session and forgets it; on an
    object without session it does nothing and raises nothing; so a
    second [close] after one that returned changes nothing. *)
Theorem close_idempotent (w : world float) :
  (forall ss, _session (self w) = Some ss ->
              env_close env (trace w) = None ->
              exists w1, close env w = (inr tt, w1)
                         /\ _session (self w1) = None
                         /\ trace w1 = EvSessionClose None :: trace w)
  /\ (_session (self w) = None -> close env w = (inr tt, w))
  /\ (forall w1, close env w = (inr tt, w1) ->
                 close env w1 = (inr tt, w1)
                 /\ (close env ;; close env) w = close env w).
Proof.
  split; [|split].
  - intros ss H Hc. eexists. split; [apply (close_open w ss H Hc)|].
    split; reflexivity.
  - apply close_closed.
  - intros w1 H.
    pose proof (close_closed w1 (close_returns_closed w w1 H)) as H1.
    split; [exact H1|].
    unfold bind at 1. rewrite H. exact H1.
Qed.

End WithInstrument.

End SmuFacts.

(** ** [str(int(s))] on strings of decimal digits *)

Module PyIntFacts.
Import PyStr PyStrFacts.

Lemma all_digits_cons (c : ascii) (s : string) :
  all_digits (String c s) <-> is_digit c = true /\ all_digits s.
Proof. unfold all_digits. simpl. apply andb_true_iff. Qed.

Lemma digit_not_space (c : ascii) : is_digit c = true -> is_space c = false.
Proof.
  destruct c as [[] [] [] [] [] [] [] []]; vm_compute; congruence.
Qed.

Lemma digit_not_underscore (c : ascii) :
  is_digit c = true -> Ascii.eqb c "_" = false.
Proof.
  destruct c as [[] [] [] [] [] [] [] []]; vm_compute; congruence.
Qed.

Lemma lstrip_digits (s : string) : all_digits s -> lstrip s = s.
Proof.
  destruct s as [|c s]; [reflexivity|].
  intros [Hc _]%all_digits_cons. simpl.
  now rewrite (digit_not_space c Hc).
Qed.

Lemma rstrip_digits (s : string) : all_digits s -> rstrip s = s.
Proof.
  induction s as [|c s IH]; [reflexivity|].
  intros [Hc Hs]%all_digits_cons. simpl. rewrite (IH Hs).
  destruct s; [|reflexivity].
  now rewrite (digit_not_space c Hc).
Qed.

Lemma literal_digits_plain (s : string) :
  all_digits s ->
  forall prev, s <> "" \/ prev = true -> literal_digits prev s = Some s.
Proof.
  induction s as [|c s IH]; intros Hs prev Hne.
  - destruct Hne as [Hne| ->]; [contradiction | reflexivity].
  - apply all_digits_cons in Hs as [Hc Hs]. simpl. rewrite Hc.
    rewrite (IH Hs true); [reflexivity | now right].
Qed.

(** A digit in front of a number: the number it makes, and that it is
    its own normal form unless the digit is zero. *)
Lemma uint_of_digit (c : ascii) (d : uint) :
  is_digit c = true ->
  exists d', uint_of_char c (Some d) = Some d'
             /\ (Ascii.eqb c "0" = false -> unorm d' = d' /\ d' <> Nil).
Proof.
  destruct c as [[] [] [] [] [] [] [] []]; vm_compute; try congruence;
    intros _; eexists; (split; [reflexivity|]);
    intros; try congruence; (split; [reflexivity | congruence]).
Qed.

Lemma uint_of_digits (s : string) :
  all_digits s -> exists d, NilEmpty.uint_of_string s = Some d.
Proof.
  induction s as [|c s IH]; [now exists Nil|].
  intros [Hc Hs]%all_digits_cons. destruct (IH Hs) as [d Hd].
  destruct (uint_of_digit c d Hc) as [d' [Hd' _]].
  exists d'. simpl. now rewrite Hd.
Qed.

Lemma digit_not_sign (c : ascii) :
  is_digit c = true -> Ascii.eqb c "+" = false /\ Ascii.eqb c "-" = false.
Proof.
  destruct c as [[] [] [] [] [] [] [] []]; vm_compute; split; congruence.
Qed.

(** On a string that starts with a digit no sign is read. *)
Lemma py_int_unsigned (c : ascii) (s : string) :
  is_digit c = true ->
  lstrip (rstrip (String c s)) = String c s ->
  py_int (String c s)
  = option_map (fun d => Z.of_int (Pos d)) (unsigned_literal (String c s)).
Proof.
  intros Hc Hstrip. unfold py_int. rewrite Hstrip.
  destruct (digit_not_sign c Hc) as [-> ->]. reflexivity.
Qed.

(** [str(int(s))] is [s] itself for a non-empty string of digits that
    does not start with a zero. *)
Lemma str_int_digits (s : string) :
  all_digits s -> s <> "" -> no_leading_zero s = true ->
  option_map str_of_Z (py_int s) = Some s.
Proof.
  intros Hs Hne Hlead.
  destruct s as [|c s]; [contradiction|].
  pose proof Hs as [Hc Hrest]%all_digits_cons.
  rewrite py_int_unsigned;
    [|exact Hc | now rewrite (rstrip_digits _ Hs), (lstrip_digits _ Hs)].
  unfold unsigned_literal.
  rewrite (literal_digits_plain _ Hs false); [|now left].
  destruct (uint_of_digits s Hrest) as [d Hd].
  destruct (uint_of_digit c d Hc) as [d' [Hd' Hnorm]].
  assert (Hparse : NilEmpty.uint_of_string (String c s) = Some d')
    by (simpl; now rewrite Hd).
  rewrite Hparse. cbn [option_map]. f_equal.
  unfold str_of_Z. rewrite DecimalZ.to_of. cbn [norm].
  simpl in Hlead. apply negb_true_iff in Hlead.
  destruct (Hnorm Hlead) as [-> Hnil].
  simpl. rewrite <- (NilEmpty.sus _ _ Hparse).
  destruct d'; [contradiction|..]; reflexivity.
Qed.

Lemma is_yyyymmdd_digits (s : string) :
  is_yyyymmdd s = true -> all_digits s /\ s <> "".
Proof.
  unfold is_yyyymmdd. intros [Hlen Hd]%andb_true_iff.
  split; [exact Hd|]. intros ->. discriminate.
Qed.

(** [a < b] is the negation of [b <= a] in the order of strings. *)
Lemma ltb_negb_leb (a b : string) : String.ltb a b = negb (String.leb b a).
Proof.
  unfold String.ltb, String.leb. rewrite (String.compare_antisym a b).
  destruct (String.compare b a); reflexivity.
Qed.

End PyIntFacts.

(** ** keysight_smu.py: the calibration date, [open], the sweep *)

Module SmuRunFacts.
Import PyStr PyStrFacts PyIntFacts Smu.

(** Rows made by a total function of the index. *)
Lemma map_seq_lookup {B} (g : nat -> B) (n s t : nat) :
  t < n -> map g (seq s n) !! t = Some (g (s + t)).
Proof.
  revert s t. induction n as [|n IH]; intros s t Ht; [lia|].
  destruct t as [|t]; simpl.
  - now rewrite Nat.add_0_r.
  - rewrite IH by lia. f_equal. f_equal. lia.
Qed.

(** A row gathered from lookups that all succeed. *)
Lemma omap_seq_lookup {B} (f : nat -> option B) (n s : nat) :
  (forall j, j < n -> is_Some (f (s + j))) ->
  length (omap f (seq s n)) = n
  /\ forall j, j < n -> omap f (seq s n) !! j = f (s + j).
Proof.
  revert s. induction n as [|n IH]; intros s Hf.
  - split; [reflexivity | intros j Hj; lia].
  - destruct (Hf 0) as [x Hx]; [lia|]. rewrite Nat.add_0_r in Hx.
    destruct (IH (S s)) as [Hlen Hlook].
    { intros j Hj. replace (S s + j) with (s + S j) by lia.
      apply Hf. lia. }
    simpl. rewrite Hx.
    change (list_omap nat B f (seq (S s) n)) with (omap f (seq (S s) n)).
    split; [simpl; now rewrite Hlen|].
    intros [|j] Hj; simpl.
    + now rewrite Nat.add_0_r.
    + rewrite Hlook by lia. f_equal. lia.
Qed.

(** The reshape in Fortran order: row [t] is made of the elements
    [t], [t + rows], [t + 2*rows], ... of the flat array. *)
Lemma reshape_F_rows {A} (rows cols : nat) (flat : list A) :
  length flat = rows * cols ->
  exists arr,
    reshape_F rows cols flat = Some arr
    /\ length arr = rows
    /\ forall t, t < rows ->
         exists row, arr !! t = Some row
                     /\ length row = cols
                     /\ forall j, j < cols ->
                          row !! j = flat !! (t + rows * j).
Proof.
  intros Hlen. unfold reshape_F.
  rewrite (proj2 (Nat.eqb_eq _ _) Hlen).
  eexists. split; [reflexivity|].
  split; [now rewrite length_map, length_seq|].
  intros t Ht. rewrite map_seq_lookup by exact Ht. simpl.
  eexists. split; [reflexivity|].
  destruct (omap_seq_lookup (fun j => flat !! (t + rows * j)) cols 0)
    as [Hl Hr].
  - intros j Hj. apply lookup_lt_is_Some. rewrite Hlen. simpl. nia.
  - split; [exact Hl|]. intros j Hj. now rewrite Hr.
Qed.

Section WithInstrument.
Context (float : Type) (F : FloatModel float) (env : Env float).

Lemma report_serial_returns (w : world float) :
  fst (report_serial w) = inr tt.
Proof.
  unfold report_serial, bind, get.
  destruct (serial_number (self w)) as [[|c s]|]; reflexivity.
Qed.

(** C4, as the code has it: when the session is opened, the first
    reset and identity query fail and [retry_delay] is a time that
    [time.sleep] accepts (a number, not negative, in range), [open]
    sleeps [retry_delay] once and runs the reset and identity query
    once more; whether that second attempt fails or not, [open]
    returns normally, after logging the failure of the second attempt
    and running the check of the serial number. *)
Theorem open_retries_once (retry_delay : float)
    (w w1 w2 : world float) (e1 : exn) :
  open_session env w = (inr tt, w1) ->
  identify env w1 = (inl e1, w2) ->
  sleep_error F retry_delay = None ->
  let w3 := record (EvSleep retry_delay) w2 in
  let w5 :=
    match identify env w3 with
    | (inr _, w4) => w4
    | (inl _, w4) =>
        record (EvLog LogException "Unable to get Keysight serial number")
               w4
    end in
  open F env retry_delay w = (inr tt, snd (report_serial w5)).
Proof.
  intros Hsess Hid Hneg w3 w5.
  unfold open, try_except, bind, try_finally.
  rewrite Hsess, Hid. unfold sleep. rewrite Hneg.
  unfold emit. fold w3. subst w5.
  destruct (identify env w3) as [[e2|[]] w4]; simpl.
  - pose proof (report_serial_returns
                  (record (EvLog LogException
                             "Unable to get Keysight serial number") w4))
      as Hr.
    destruct (report_serial _) as [r w6]. simpl in *. now subst r.
  - pose proof (report_serial_returns w4) as Hr.
    destruct (report_serial w4) as [r w6]. simpl in *. now subst r.
Qed.

(** When the session cannot be obtained there is no retry: [open]
    logs and raises its own error. *)
Lemma open_raises_without_session (retry_delay : float)
    (w w1 : world float) (e : exn) :
  open_session env w = (inl e, w1) ->
  open F env retry_delay w
  = (inl (Exn Exception connect_error),
     record (EvLog LogException connect_error) w1).
Proof.
  intros Hsess. unfold open, try_except, bind. now rewrite Hsess.
Qed.

(** The calibration check on the dates that [str(int(...))] leaves
    alone: for an expiration date of eight digits that does not start
    with a zero, the check ends with the status valid exactly when the
    expiration string is not below today's date string in the order of
    strings. *)
Theorem caldate_valid_iff (kwargs : gmap string string)
    (expiration : string) (w : world float) :
  kwargs !! "calibration_expiration" = Some expiration ->
  is_yyyymmdd expiration = true ->
  no_leading_zero expiration = true ->
  exists w',
    _read_check_caldate env kwargs w = (inr tt, w')
    /\ calDate (self w') = Some expiration
    /\ calStatus (self w')
       = Some (String.leb (env_today env (trace w)) expiration).
Proof.
  intros Hkey Hiso Hlead.
  destruct (is_yyyymmdd_digits _ Hiso) as [Hd Hne].
  pose proof (str_int_digits _ Hd Hne Hlead) as Hstr.
  unfold _read_check_caldate. rewrite Hkey.
  destruct (py_int expiration) as [n|]; [|discriminate].
  simpl in Hstr. injection Hstr as Hstr.
  unfold bind, modify, history. simpl. rewrite Hstr, ltb_negb_leb.
  destruct (String.leb (env_today env (trace w)) expiration);
    simpl; eexists; (split; [reflexivity|]); split; reflexivity.
Qed.

(** C3, as the code has it: after the sweep was started, a reply of
    [4*N] readings for a voltage list of length [N] comes back as 4
    rows of length [N], and reading [j] of row [t] is reading
    [t + 4*j] of the reply: the row index varies fastest. *)
Theorem two_channel_qst_rows (v_list : list float)
    (aperature : float) (w w1 : world float) (ss : Session)
    (reply : string) (vals : list float) :
  qst_start F env v_list aperature w = (inr tt, w1) ->
  _session (self w1) = Some ss ->
  env_query env (trace w1) "FETC:ARR? (@1,2)" = inr reply ->
  parse_all (fl_parse F) (split_on "," reply) = Some vals ->
  length vals = 4 * length v_list ->
  env_query env
    (EvPrint (str_of_N (N.of_nat (length (split_on "," reply)))
                +:+ " values read for list of "
                +:+ str_of_N (N.of_nat (length v_list)))
       :: EvQuery "FETC:ARR? (@1,2)" (inr reply) :: trace w1)
    ":SYST:ERR:CODE:ALL?" = inr no_error ->
  exists arr w',
    two_channel_qst F env v_list aperature w = (inr arr, w')
    /\ length arr = 4
    /\ forall t, t < 4 ->
         exists row, arr !! t = Some row
                     /\ length row = length v_list
                     /\ forall j, j < length v_list ->
                          row !! j = vals !! (t + 4 * j).
Proof.
  intros Hstart Hss Hfetch Hparse Hlen Hstat.
  destruct (reshape_F_rows 4 (length v_list) vals Hlen)
    as [arr [Harr Hrows]].
  exists arr. eexists. split; [|exact Hrows].
  unfold two_channel_qst, bind. rewrite Hstart.
  unfold qst_fetch, bind, query. rewrite Hss, Hfetch.
  unfold print, emit, floats_of. rewrite Hparse. unfold ret.
  rewrite Hlen, Nat.mul_comm, Nat.div_mul by lia.
  rewrite Nat.mul_comm in Hlen. rewrite Harr.
  unfold check, bind, query. simpl. rewrite Hss, Hstat.
  reflexivity.
Qed.

End WithInstrument.

End SmuRunFacts.

(** ** MockKeysightSMU *)

Module MockFacts.
Import PyStr Smu.

(** C6: every operation of the mock returns its constant for any
    arguments, the status text included, and leaves the world as it
    was: nothing is sent, slept, logged or raised. *)
Theorem mock_constants (float : Type) (F : FloatModel float)
    (w : world float) (chan : channel)
    (a b c : float) (curr_range : option float)
    (four_wire : bool)
    (stat id : string) :
  MockSmu.smu_meas F chan a w = (inr (fl_of_Q F 0, fl_of_Q F 0), w)
  /\ MockSmu._svmi F chan a b c w = (inr [fl_of_Q F 0], w)
  /\ MockSmu.source_dci F chan a b w = (inr (fl_of_Q F 0), w)
  /\ MockSmu.source_dcv F chan a b w = (inr (fl_of_Q F 0), w)
  /\ MockSmu.initsv_vidaq chan curr_range four_wire w = (inr "Test STB", w)
  /\ MockSmu.fetch_vi F chan w = (inr ([fl_of_Q F 0], [fl_of_Q F 0]), w)
  /\ MockSmu.err_check stat id w = (inr false, w).
Proof. repeat split. Qed.

End MockFacts.

(** * The properties on concrete runs *)

Module Runs.
Import PyStr Smu Bench.

(** ** The fault check *)

(** The status ["+0"] without the line feed is a fault for the code:
    the fault check raises on it. *)
Lemma err_check_plus_zero_is_fault :
  fst (err_check (float:=Z) "+0" "" (start open_smu))
  = inl (Exn ValueError "SCPI error +0  ")
  /\ fst (err_check (float:=Z) "+0" "" (start open_smu)) <> inr false.
Proof. split; [vm_compute; reflexivity | discriminate]. Qed.

(** The status ["+0"] followed by a line feed is another string than
    ["+0"], and the fault check returns [False] on it instead of
    raising. *)
Lemma err_check_newline_is_no_fault :
  no_error <> "+0"
  /\ err_check (float:=Z) no_error "source_dcv" (start open_smu)
     = (inr false, start open_smu)
  /\ (forall e, fst (err_check (float:=Z) no_error "source_dcv"
                               (start open_smu)) <> inl e).
Proof.
  split; [discriminate|]. split; [vm_compute; reflexivity|].
  intros e. vm_compute. discriminate.
Qed.

Lemma err_check_raises_witness :
  "-113" +:+ newline <> no_error
  /\ exists msg w',
       err_check (float:=Z) ("-113" +:+ newline) "source_dcv"
                 (start open_smu)
       = (inl (Exn ValueError msg), w')
       /\ occurs_in ("-113" +:+ newline) msg
       /\ occurs_in "source_dcv" msg
       /\ self w' = self (start open_smu).
Proof.
  split; [discriminate|].
  apply (SmuFacts.err_check_raises Z). discriminate.
Defined.

(** ** [_svmi] and [close] *)

Lemma svmi_invalid_channel_witness :
  channel_str (ChanInt 3) <> "1"
  /\ channel_str (ChanInt 3) <> "2"
  /\ _svmi whole (healthy "1,2" "20210101") (ChanInt 3) 5%Z 1%Z 1%Z
           (start open_smu)
     = (inr None,
        record (EvLog LogError "Invalid SMU Channel") (start open_smu)).
Proof.
  split; [discriminate|]. split; [discriminate|].
  apply (SmuFacts.svmi_invalid_channel Z whole); discriminate.
Defined.

Lemma close_idempotent_witness :
  exists w1,
    close (healthy "" "20210101") (start open_smu) = (inr tt, w1)
    /\ _session (self w1) = None
    /\ close (healthy "" "20210101") w1 = (inr tt, w1).
Proof.
  destruct (SmuFacts.close_idempotent Z (healthy "" "20210101")
              (start open_smu)) as [Hopen [_ Hidem]].
  destruct (Hopen seed_session eq_refl eq_refl) as [w1 [Hc [Hs _]]].
  exists w1. split; [exact Hc|]. split; [exact Hs|].
  apply (Hidem w1 Hc).
Defined.

(** ** [open] *)

(** On an instrument that never takes a command both attempts fail,
    and [open] returns normally: nothing is raised to the caller. *)
Lemma open_returns_after_two_failures :
  let w := start seed_smu in
  let w1 := snd (open_session silent w) in
  let w2 := snd (identify silent w1) in
  let w3 := record (EvSleep (1%Z : Z)) w2 in
  open_session silent w = (inr tt, w1)
  /\ fst (identify silent w1) = inl tmo
  /\ fst (identify silent w3) = inl tmo
  /\ fst (open whole silent 1%Z w) = inr tt
  /\ (forall e, fst (open whole silent 1%Z w) <> inl e).
Proof.
  repeat split; try (vm_compute; reflexivity). intros e. discriminate.
Qed.

Lemma open_retries_once_witness :
  let w := start seed_smu in
  let w1 := snd (open_session slow_start w) in
  let w2 := snd (identify slow_start w1) in
  open_session slow_start w = (inr tt, w1)
  /\ identify slow_start w1 = (inl tmo, w2)
  /\ sleep_error whole 1%Z = None
  /\ fst (open whole slow_start 1%Z w) = inr tt
  /\ serial_number (self (snd (open whole slow_start 1%Z w))) = Some "MY51144607"
  /\ List.filter (fun e => match e with EvSleep _ => true | _ => false end)
                 (trace (snd (open whole slow_start 1%Z w)))
     = [EvSleep (1%Z : Z)].
Proof.
  intros w w1 w2.
  assert (H1 : open_session slow_start w = (inr tt, w1))
    by (vm_compute; reflexivity).
  assert (H2 : identify slow_start w1 = (inl tmo, w2))
    by (vm_compute; reflexivity).
  assert (H3 : sleep_error whole 1%Z = None) by reflexivity.
  split; [exact H1|]. split; [exact H2|]. split; [exact H3|].
  rewrite (SmuRunFacts.open_retries_once Z whole slow_start 1%Z w w1 w2 tmo
             H1 H2 H3).
  repeat split; vm_compute; reflexivity.
Defined.

(** ** The calibration date *)

(** C5: the comparison is not the one of the ISO date strings when
    the expiration starts with a zero. An expiration in the year 0999
    reads as ["9991231"] after [str(int(...))], which is above
    ["20210101"] in the order of strings: the status is valid although
    the expiration string is below today's. *)
Lemma caldate_leading_zero :
  let kwargs : gmap string string :=
    {[ "calibration_expiration" := "09991231" ]} in
  let w' := snd (_read_check_caldate (healthy "" "20210101") kwargs
                                     (start seed_smu)) in
  is_yyyymmdd "09991231" = true
  /\ calStatus (self w') = Some true
  /\ String.leb "20210101" "09991231" = false.
Proof. repeat split. Qed.

(** The two dates of the specification. *)
Example caldate_20210112 :
  let kwargs : gmap string string :=
    {[ "calibration_expiration" := "20210112" ]} in
  calStatus (self (snd (_read_check_caldate (healthy "" "20210101") kwargs
                                            (start seed_smu))))
  = Some true
  /\ calStatus (self (snd (_read_check_caldate (healthy "" "20210201")
                                               kwargs (start seed_smu))))
     = Some false.
Proof. split; reflexivity. Qed.

Lemma caldate_valid_iff_witness :
  let kwargs : gmap string string :=
    {[ "calibration_expiration" := "20210112" ]} in
  kwargs !! "calibration_expiration" = Some "20210112"
  /\ is_yyyymmdd "20210112" = true
  /\ no_leading_zero "20210112" = true
  /\ exists w',
       _read_check_caldate (healthy "" "20210101") kwargs (start seed_smu)
       = (inr tt, w')
       /\ calDate (self w') = Some "20210112"
       /\ calStatus (self w') = Some (String.leb "20210101" "20210112").
Proof.
  intros kwargs.
  assert (H1 : kwargs !! "calibration_expiration" = Some "20210112")
    by (vm_compute; reflexivity).
  split; [exact H1|]. split; [reflexivity|]. split; [reflexivity|].
  apply (SmuRunFacts.caldate_valid_iff Z (healthy "" "20210101")
           kwargs "20210112" (start seed_smu) H1); reflexivity.
Defined.

(** ** The sweep *)

(** Eight readings for a list of two voltages: row 0 is made of the
    readings 0 and 4, not of the readings 0 and 1. *)
Lemma two_channel_qst_interleaved :
  let flat : list Z := [0; 1; 2; 3; 4; 5; 6; 7]%Z in
  let arr : list (list Z) := [[0; 4]; [1; 5]; [2; 6]; [3; 7]]%Z in
  fst (two_channel_qst whole (healthy "0,1,2,3,4,5,6,7" "20210101")
                       [18%Z; 19%Z] 1%Z (start open_smu))
  = inr arr
  /\ arr !! 0%nat <> Some (take 2 (drop (0 * 2) flat)).
Proof.
  intros flat arr. split; [vm_compute; reflexivity | discriminate].
Qed.

Lemma two_channel_qst_rows_witness :
  let env := healthy "0,1,2,3,4,5,6,7" "20210101" in
  let v_list : list (Z) := [18%Z; 19%Z] in
  let w := start open_smu in
  let w1 := snd (qst_start whole env v_list 1%Z w) in
  let vals : list (Z) := [0; 1; 2; 3; 4; 5; 6; 7]%Z in
  qst_start whole env v_list 1%Z w = (inr tt, w1)
  /\ parse_all (fl_parse whole) (split_on "," "0,1,2,3,4,5,6,7") = Some vals
  /\ length vals = 4 * length v_list
  /\ exists arr w',
       two_channel_qst whole env v_list 1%Z w = (inr arr, w')
       /\ length arr = 4
       /\ forall t, t < 4 ->
            exists row, arr !! t = Some row
                        /\ length row = length v_list
                        /\ forall j, j < length v_list ->
                             row !! j = vals !! (t + 4 * j).
Proof.
  intros env v_list w w1 vals.
  assert (H1 : qst_start whole env v_list 1%Z w = (inr tt, w1))
    by (vm_compute; reflexivity).
  assert (Hs : _session (self w1) = Some seed_session)
    by (vm_compute; reflexivity).
  assert (Hq : env_query env (trace w1) "FETC:ARR? (@1,2)"
               = inr "0,1,2,3,4,5,6,7") by (vm_compute; reflexivity).
  assert (H2 : parse_all (fl_parse whole) (split_on "," "0,1,2,3,4,5,6,7")
               = Some vals) by (vm_compute; reflexivity).
  assert (H3 : length vals = 4 * length v_list) by reflexivity.
  split; [exact H1|]. split; [exact H2|]. split; [exact H3|].
  apply (SmuRunFacts.two_channel_qst_rows Z whole env v_list 1%Z w w1
           seed_session "0,1,2,3,4,5,6,7" vals H1 Hs Hq H2 H3).
  vm_compute; reflexivity.
Defined.

End Runs.

(** * Further properties of the code *)

(** ** md_utils.py: how the two results and the rows relate *)

Module MdMoreFacts.
Import PyStr PyStrFacts MdUtils MdUtilsFacts View.

Lemma text_of_lines_cons (x : string) (xs : list string) :
  text_of_lines (x :: xs) = drop_last x +:+ newline +:+ text_of_lines xs.
Proof. reflexivity. Qed.

Lemma text_of_lines_app (xs ys : list string) :
  text_of_lines (xs ++ ys) = text_of_lines xs +:+ text_of_lines ys.
Proof.
  induction xs as [|x xs IH]; [reflexivity|].
  rewrite <- app_comm_cons, !text_of_lines_cons, IH.
  now rewrite !app_assoc.
Qed.

Lemma drop_last_app (a b : string) :
  b <> "" -> drop_last (a +:+ b) = a +:+ drop_last b.
Proof.
  intros Hb. induction a as [|x a IH]; [reflexivity|].
  rewrite !app_cons. simpl. rewrite IH.
  destruct (a +:+ b) eqn:E; [|reflexivity].
  destruct a; [|discriminate]. now destruct b.
Qed.

Lemma row_line_from (row : list string) (pstr : string) :
  fold_left (fun pstr cell => pstr +:+ cell +:+ "|") row pstr
  = pstr +:+ row_line row.
Proof.
  unfold row_line. revert pstr.
  induction row as [|cell row IH]; intros pstr; simpl.
  - now rewrite app_empty_r.
  - rewrite IH, (IH ("" +:+ cell +:+ "|")), app_empty_l, !app_assoc.
    reflexivity.
Qed.

Lemma row_line_cons (cell : string) (row : list string) :
  row_line (cell :: row) = cell +:+ "|" +:+ row_line row.
Proof.
  unfold row_line at 1. simpl.
  now rewrite row_line_from, app_empty_l, app_assoc.
Qed.

Lemma row_line_ends (cell : string) (row : list string) :
  ends_with_bar (row_line (cell :: row)).
Proof.
  revert cell. induction row as [|c row IH]; intros cell.
  - exists cell. rewrite row_line_cons. reflexivity.
  - destruct (IH c) as [body Hbody]. exists (cell +:+ "|" +:+ body).
    rewrite row_line_cons, Hbody, !app_assoc. reflexivity.
Qed.

(** The invariant of the loop: the text is the text of the lines. *)
Lemma rows_from_text (print_out : bool) (rows : list (list string))
    (i_ : nat) (a : acc) :
  tablestr a = text_of_lines (lines_out a) ->
  tablestr (rows_from print_out i_ rows a)
  = text_of_lines (lines_out (rows_from print_out i_ rows a)).
Proof.
  revert i_ a. induction rows as [|row rows IH]; intros i_ a Ha;
    [exact Ha|].
  simpl. apply IH. unfold row_step.
  destruct (Nat.eqb i_ 0); simpl; rewrite !text_of_lines_app, Ha; simpl;
    now rewrite ?app_empty_r, ?app_assoc.
Qed.

(** The invariant of the loop: what is printed is the lines without
    their last character, or nothing. *)
Lemma rows_from_printed (print_out : bool) (rows : list (list string))
    (i_ : nat) (a : acc) :
  printed a = (if print_out then map drop_last (lines_out a) else []) ->
  printed (rows_from print_out i_ rows a)
  = (if print_out
     then map drop_last (lines_out (rows_from print_out i_ rows a))
     else []).
Proof.
  revert i_ a. induction rows as [|row rows IH]; intros i_ a Ha;
    [exact Ha|].
  simpl. apply IH. unfold row_step.
  destruct (Nat.eqb i_ 0), print_out; simpl; rewrite ?Ha, ?map_app;
    simpl; now rewrite <- ?List.app_assoc.
Qed.

(** The lines and the text do not depend on the flag. *)
Lemma rows_from_flag (rows : list (list string)) (i_ : nat) (a b : acc) :
  tablestr a = tablestr b -> lines_out a = lines_out b ->
  tablestr (rows_from true i_ rows a) = tablestr (rows_from false i_ rows b)
  /\ lines_out (rows_from true i_ rows a)
     = lines_out (rows_from false i_ rows b).
Proof.
  revert i_ a b. induction rows as [|row rows IH]; intros i_ a b Ht Hl;
    [now split|].
  simpl. apply IH; unfold row_step; destruct (Nat.eqb i_ 0); simpl;
    now rewrite Ht || rewrite Hl.
Qed.

(** X1: the text block is made of the returned lines: each line
    without its last character, followed by a line feed. *)
Theorem mdTable_str_text_of_lines (print_out : bool)
    (str2d : list (list string)) :
  fst (mdTable_str print_out str2d)
  = text_of_lines (snd (mdTable_str print_out str2d)).
Proof.
  unfold mdTable_str, mdTable_run. simpl.
  now apply rows_from_text.
Qed.

(** X2: the flag [_print_out] changes nothing in what is returned; what
    is printed with the flag set is the returned lines without their
    last character, and nothing is printed without it. *)
Theorem mdTable_str_print_out (str2d : list (list string)) :
  mdTable_str true str2d = mdTable_str false str2d
  /\ printed (mdTable_run true str2d)
     = map drop_last (snd (mdTable_str true str2d))
  /\ printed (mdTable_run false str2d) = [].
Proof.
  unfold mdTable_str, mdTable_run. simpl. split; [|split].
  - destruct (rows_from_flag str2d 0
                {| tablestr := ""; lines_out := []; printed := [] |}
                {| tablestr := ""; lines_out := []; printed := [] |}
                eq_refl eq_refl) as [-> ->].
    reflexivity.
  - now apply (rows_from_printed true).
  - now apply (rows_from_printed false).
Qed.

(** X3: the line of a row without its last character is the cells of
    the row joined by bars. *)
Theorem row_line_is_join (row : list string) :
  drop_last (row_line row) = join "|" row.
Proof.
  induction row as [|cell row IH]; [reflexivity|].
  rewrite row_line_cons.
  destruct row as [|c row].
  - change (row_line []) with "". rewrite app_empty_r.
    apply (drop_last_snoc cell "|").
  - rewrite <- app_assoc, drop_last_app.
    + rewrite IH, app_assoc. reflexivity.
    + destruct (row_line_ends c row) as [body ->].
      destruct body; discriminate.
Qed.

Lemma row_line_length (row : list string) :
  String.length (row_line row) = cells_length row + length row.
Proof.
  induction row as [|cell row IH]; [reflexivity|].
  rewrite row_line_cons, !length_app, IH. simpl. lia.
Qed.

(** X4: the header line has one bar per column, the separator line
    only the closing one: with [n] columns the header line is [n - 1]
    characters longer than the separator line. *)
Theorem separator_shorter_than_header (print_out : bool)
    (header : list string) (rows : list (list string))
    (head_line sep_line : string) :
  snd (mdTable_str print_out (header :: rows)) !! 0%nat = Some head_line ->
  snd (mdTable_str print_out (header :: rows)) !! 1%nat = Some sep_line ->
  String.length head_line + 1 = String.length sep_line + length header.
Proof.
  unfold mdTable_str, mdTable_run. simpl rows_from.
  destruct (rows_from_S print_out 0 rows
              (row_step print_out 0 header
                 {| tablestr := ""; lines_out := []; printed := [] |}))
    as [_ Hl].
  simpl. rewrite Hl. unfold row_step, MdUtils.emit. simpl.
  intros [= <-] [= <-].
  rewrite row_line_length, dash_run_spec, length_app, length_repeat_char.
  simpl. lia.
Qed.

End MdMoreFacts.

(** ** keysight_smu.py: configuration, constructor, calibration date *)

Module ConfigFacts.
Import PyStr PyStrFacts PyIntFacts Smu SmuOps.

Section WithFloat.
Context (float : Type) (F : FloatModel float).

(** The address [_read_instr] leaves: the configured one, else the one
    made from the IP address, else the one the object had. *)
Lemma read_instr_address (hw : gmap string string) (w : world float) :
  exists w1,
    (match hw !! "visa_addr" with
     | Some addr => modify (set_visa_addr addr)
     | None =>
         match hw !! "ip_address" with
         | Some ip =>
             modify (set_visa_addr ("TCPIP0::" +:+ ip +:+ "::inst0::INSTR"))
         | None => ret tt
         end
     end) w = (inr tt, w1)
    /\ trace w1 = trace w
    /\ _session (self w1) = _session (self w)
    /\ idns (self w1) = idns (self w)
    /\ model (self w1) = model (self w)
    /\ serial_number (self w1) = serial_number (self w)
    /\ visa_addr (self w1)
       = match hw !! "visa_addr" with
         | Some addr => Some addr
         | None =>
             match hw !! "ip_address" with
             | Some ip => Some ("TCPIP0::" +:+ ip +:+ "::inst0::INSTR")
             | None => visa_addr (self w)
             end
         end.
Proof.
  destruct (hw !! "visa_addr") as [addr|];
    [|destruct (hw !! "ip_address") as [ip|]];
    eexists; (split; [reflexivity|]); repeat split.
Qed.

(** X5: with a serial number and a model in the configuration,
    [_read_instr] stores both and returns without logging; the address
    is the configured [visa_addr] when there is one, even beside an
    [ip_address], else the TCPIP address made from [ip_address], else
    it stays what it was. *)
Theorem read_instr_complete (hw : gmap string string) (sn m : string)
    (w : world float) :
  hw !! "serial_number" = Some sn ->
  hw !! "model" = Some m ->
  exists w',
    _read_instr hw w = (inr tt, w')
    /\ serial_number (self w') = Some sn
    /\ model (self w') = Some m
    /\ visa_addr (self w')
       = match hw !! "visa_addr" with
         | Some addr => Some addr
         | None =>
             match hw !! "ip_address" with
             | Some ip => Some ("TCPIP0::" +:+ ip +:+ "::inst0::INSTR")
             | None => visa_addr (self w)
             end
         end
    /\ trace w' = trace w.
Proof.
  intros Hsn Hm.
  destruct (read_instr_address hw w) as [w1 [Hrun [Ht [_ [_ [_ [_ Ha]]]]]]].
  unfold _read_instr, try_except_KeyError, bind. rewrite Hrun.
  unfold lookup_key. rewrite Hsn, Hm. simpl.
  eexists. split; [reflexivity|]. simpl. repeat split; assumption.
Qed.

(** X6: without a serial number in the configuration [_read_instr]
    still returns normally: it logs the missing key, and neither the
    serial number nor the model of the object is changed, whether the
    configuration has a model or not. *)
Theorem read_instr_missing_serial (hw : gmap string string)
    (w : world float) :
  hw !! "serial_number" = None ->
  exists w',
    _read_instr hw w = (inr tt, w')
    /\ serial_number (self w') = serial_number (self w)
    /\ model (self w') = model (self w)
    /\ trace w'
       = EvLog LogError "Missing 'serial_number' for KeysightSMU" :: trace w.
Proof.
  intros Hsn.
  destruct (read_instr_address hw w) as [w1 [Hrun [Ht [_ [_ [Hm [Hs _]]]]]]].
  unfold _read_instr, try_except_KeyError, bind. rewrite Hrun.
  unfold lookup_key. rewrite Hsn. simpl.
  eexists. split; [reflexivity|]. simpl.
  split; [exact Hs|]. split; [exact Hm|]. now rewrite Ht.
Qed.

(** What [_read_instr] can do to an object. *)
Lemma read_instr_returns (hw : gmap string string) (w : world float) :
  exists w',
    _read_instr hw w = (inr tt, w')
    /\ _session (self w') = _session (self w)
    /\ idns (self w') = idns (self w)
    /\ (trace w' = trace w
        \/ exists msg, trace w' = EvLog LogError msg :: trace w).
Proof.
  destruct (read_instr_address hw w) as [w1 [Hrun [Ht [Hs [Hi _]]]]].
  unfold _read_instr, try_except_KeyError, bind. rewrite Hrun.
  unfold lookup_key.
  destruct (hw !! "serial_number") as [sn|]; simpl;
    [destruct (hw !! "model") as [m|]; simpl|];
    eexists; (split; [reflexivity|]); simpl;
    (split; [exact Hs|]); (split; [exact Hi|]);
    rewrite Ht; eauto.
Qed.

(** X7: [_read_instr] never raises, whatever keys the configuration
    has; it never touches the session or the identity list and calls
    nothing outside: it leaves at most one log record. *)
Theorem read_instr_quiet (hw : gmap string string) (w : world float) :
  fst (_read_instr hw w) = inr tt
  /\ _session (self (snd (_read_instr hw w))) = _session (self w)
  /\ idns (self (snd (_read_instr hw w))) = idns (self w)
  /\ (trace (snd (_read_instr hw w)) = trace w
      \/ exists msg,
           trace (snd (_read_instr hw w)) = EvLog LogError msg :: trace w).
Proof.
  destruct (read_instr_returns hw w) as [w' [-> H]]. exact (conj eq_refl H).
Qed.

(** X8: given a hardware configuration and a name, the constructor
    never raises, whether the configuration knows the name or not: the
    object has no session and no identity, and nothing was called
    outside. *)
Theorem init_never_connects (kwargs : InitArgs)
    (hw : gmap string (gmap string string)) (name : string) :
  hw_config kwargs = Some hw ->
  unique_identifier kwargs = Some name ->
  exists w,
    __init__ F kwargs = Ready name (default_scan F) w
    /\ _session (self w) = None
    /\ idns (self w) = None
    /\ forallb (fun e => negb (is_io e)) (trace w) = true.
Proof.
  intros Hhw Hname. unfold __init__. rewrite Hhw, Hname.
  eexists. split; [reflexivity|].
  unfold try_except, bind, lookup_key.
  destruct (hw !! name) as [cfg|]; simpl.
  - destruct (read_instr_returns cfg {| self := blank_smu; trace := [] |})
      as [w' [Hrun [Hs [Hi Ht]]]].
    rewrite Hrun. simpl. split; [exact Hs|]. split; [exact Hi|].
    destruct Ht as [-> | [msg ->]]; reflexivity.
  - repeat split.
Qed.

(** X9: [_get_id] raises [AttributeError] on every object, with or
    without identity list, and changes nothing. *)
Theorem get_id_raises (w : world float) :
  exists msg, _get_id w = (inl (Exn AttributeError msg), w).
Proof.
  unfold _get_id, bind, get.
  destruct (idns (self w)); simpl; eexists; reflexivity.
Qed.

Section WithInstrument.
Context (env : Env float).

(** X10: the errors of the calibration check. Without the key
    [calibration_expiration] it raises [KeyError] and changes nothing;
    with an expiration that is not an integer literal it raises
    [ValueError] after [calDate] was stored, and [calStatus] is left
    as it was. *)
Theorem caldate_errors (kwargs : gmap string string) (w : world float) :
  (kwargs !! "calibration_expiration" = None ->
   _read_check_caldate env kwargs w
   = (inl (Exn KeyError "'calibration_expiration'"), w))
  /\ (forall expiration,
        kwargs !! "calibration_expiration" = Some expiration ->
        py_int expiration = None ->
        exists msg w',
          _read_check_caldate env kwargs w = (inl (Exn ValueError msg), w')
          /\ calDate (self w') = Some expiration
          /\ calStatus (self w') = calStatus (self w)
          /\ trace w' = trace w).
Proof.
  unfold _read_check_caldate. split.
  - intros ->. reflexivity.
  - intros expiration -> Hint. rewrite Hint.
    eexists _, _. split; [reflexivity|]. repeat split.
Qed.

(** [a <= a] in the order of strings. *)
Lemma leb_refl (a : string) : String.leb a a = true.
Proof.
  unfold String.leb.
  assert (H : String.compare a a = Eq).
  { induction a as [|c a IH]; [reflexivity|]. simpl.
    assert (Hc : Ascii.compare c c = Eq)
      by (unfold Ascii.compare; apply N.compare_refl).
    now rewrite Hc. }
  now rewrite H.
Qed.

(** X11: on the expiration day itself the instrument is still in
    calibration: the status is valid and nothing is logged. *)
Theorem caldate_valid_on_the_day (kwargs : gmap string string)
    (expiration : string) (w : world float) :
  kwargs !! "calibration_expiration" = Some expiration ->
  is_yyyymmdd expiration = true ->
  no_leading_zero expiration = true ->
  env_today env (trace w) = expiration ->
  exists w',
    _read_check_caldate env kwargs w = (inr tt, w')
    /\ calStatus (self w') = Some true
    /\ trace w' = trace w.
Proof.
  intros Hkey Hiso Hlead Htoday.
  destruct (is_yyyymmdd_digits _ Hiso) as [Hd Hne].
  pose proof (str_int_digits _ Hd Hne Hlead) as Hstr.
  unfold _read_check_caldate. rewrite Hkey.
  destruct (py_int expiration) as [n|]; [|discriminate].
  simpl in Hstr. injection Hstr as Hstr.
  unfold bind, modify, history. simpl.
  rewrite Hstr, Htoday, ltb_negb_leb, leb_refl. simpl.
  eexists. split; [reflexivity|]. split; reflexivity.
Qed.

(** An expiration before today is reported: the status is
    invalid and one record [Smu Out of Cal] is logged. *)
Theorem caldate_expired_is_logged (kwargs : gmap string string)
    (expiration : string) (w : world float) :
  kwargs !! "calibration_expiration" = Some expiration ->
  is_yyyymmdd expiration = true ->
  no_leading_zero expiration = true ->
  String.ltb expiration (env_today env (trace w)) = true ->
  exists w',
    _read_check_caldate env kwargs w = (inr tt, w')
    /\ calStatus (self w') = Some false
    /\ trace w' = EvLog LogInfo "Smu Out of Cal" :: trace w.
Proof.
  intros Hkey Hiso Hlead Hlt.
  destruct (is_yyyymmdd_digits _ Hiso) as [Hd Hne].
  pose proof (str_int_digits _ Hd Hne Hlead) as Hstr.
  unfold _read_check_caldate. rewrite Hkey.
  destruct (py_int expiration) as [n|]; [|discriminate].
  simpl in Hstr. injection Hstr as Hstr.
  unfold bind, modify, history. simpl. rewrite Hstr, Hlt. simpl.
  eexists. split; [reflexivity|]. split; reflexivity.
Qed.

End WithInstrument.
End WithFloat.

End ConfigFacts.

(** ** keysight_smu.py: opening the session *)

Module OpenFacts.
Import PyStr PyStrFacts Smu SmuOps.

Section WithInstrument.
Context (float : Type) (F : FloatModel float) (env : Env float).

(** X12: with a configured address [open] never lists the resources
    of the bus: it opens that address and sets the line feed as write
    termination and a timeout of 4000 ms. *)
Theorem open_session_configured (c : ascii) (rest : string)
    (w : world float) :
  visa_addr (self w) = Some (String c rest) ->
  env_resource_manager env (trace w) = None ->
  env_open_resource env (EvResourceManager None :: trace w) (String c rest)
  = None ->
  exists w',
    open_session env w = (inr tt, w')
    /\ _session (self w')
       = Some {| sess_addr := String c rest;
                 write_termination := Some newline;
                 timeout := Some 4000%Z |}
    /\ visa_addr (self w') = Some (String c rest)
    /\ trace w'
       = EvOpenResource (String c rest) None :: EvResourceManager None
           :: trace w.
Proof.
  intros Hva Hrm Hor.
  unfold open_session, bind, resource_manager, get. rewrite Hrm. simpl.
  rewrite Hva. unfold ret, open_resource. simpl. rewrite Hor.
  eexists. split; [reflexivity|]. simpl. repeat split. exact Hva.
Qed.

(** The ways an address is missing: [None] or the empty string. *)
Lemma open_session_lists (w : world float) :
  visa_addr (self w) = None \/ visa_addr (self w) = Some "" ->
  env_resource_manager env (trace w) = None ->
  open_session env w
  = (let w1 := record (EvResourceManager None) w in
     let res := env_list_resources env (trace w1) in
     let w2 := record (EvListResources res) w1 in
     match res with
     | inl e => (inl e, w2)
     | inr instr_list =>
         match first_with_serial (serial_number (self w)) instr_list with
         | inl e => (inl e, w2)
         | inr found =>
             (open_resource env found ;;
              modify (fun o => set_session
                (option_map (fun ss => {| sess_addr := sess_addr ss;
                                          write_termination := Some newline;
                                          timeout := timeout ss |})
                            (_session o)) o) ;;
              modify (fun o => set_session
                (option_map (fun ss => {| sess_addr := sess_addr ss;
                                          write_termination :=
                                            write_termination ss;
                                          timeout := Some 4000%Z |})
                            (_session o)) o))
               (update (set_visa_addr found) w2)
         end
     end).
Proof.
  intros Hva Hrm.
  unfold open_session, bind, resource_manager, get. rewrite Hrm. simpl.
  destruct Hva as [-> | ->]; unfold list_resources, lift; simpl;
    destruct (env_list_resources env _) as [e|instr_list]; try reflexivity;
    destruct (first_with_serial _ _); reflexivity.
Qed.

(** X13: without a configured address [open] takes the first resource
    of the bus whose name contains the serial number, keeps it as the
    address of the object and opens it. *)
Theorem open_session_discovers (w : world float) (sn addr : string)
    (instr_list others : list string) :
  visa_addr (self w) = None \/ visa_addr (self w) = Some "" ->
  serial_number (self w) = Some sn ->
  env_resource_manager env (trace w) = None ->
  env_list_resources env (EvResourceManager None :: trace w)
  = inr instr_list ->
  List.filter (fun a => contains sn a) instr_list = addr :: others ->
  env_open_resource env
    (EvListResources (inr instr_list) :: EvResourceManager None :: trace w)
    addr = None ->
  exists w',
    open_session env w = (inr tt, w')
    /\ visa_addr (self w') = Some addr
    /\ option_map sess_addr (_session (self w')) = Some addr.
Proof.
  intros Hva Hsn Hrm Hls Hfilter Hor.
  rewrite (open_session_lists w Hva Hrm). simpl. rewrite Hls.
  unfold first_with_serial. rewrite Hsn.
  destruct instr_list as [|i0 il]; [discriminate|].
  rewrite Hfilter. unfold bind, open_resource. simpl. rewrite Hor.
  eexists. split; [reflexivity|]. split; reflexivity.
Qed.

(** X14: without a configured address, when no resource of the bus
    contains the serial number, [open] raises its connection error for
    any retry delay, and the object keeps the session and the address
    it had. *)
Theorem open_no_matching_resource (retry_delay : float) (w : world float)
    (sn : string) (instr_list : list string) :
  visa_addr (self w) = None \/ visa_addr (self w) = Some "" ->
  serial_number (self w) = Some sn ->
  env_resource_manager env (trace w) = None ->
  env_list_resources env (EvResourceManager None :: trace w)
  = inr instr_list ->
  List.filter (fun a => contains sn a) instr_list = [] ->
  exists w',
    open F env retry_delay w = (inl (Exn Exception connect_error), w')
    /\ self w' = self w.
Proof.
  intros Hva Hsn Hrm Hls Hfilter.
  unfold open, try_except, bind.
  rewrite (open_session_lists w Hva Hrm). simpl. rewrite Hls.
  unfold first_with_serial. rewrite Hsn, Hfilter.
  destruct instr_list; simpl; eexists; split; reflexivity.
Qed.

(** X15: the identity is read from the reply to [*IDN?]: the second
    field is the model, the third the serial number. *)
Theorem identify_reads_identity (w : world float) (ss : Session)
    (reply f0 f1 f2 : string) (more : list string) :
  _session (self w) = Some ss ->
  env_write env (trace w) "*RST" = None ->
  env_query env (EvWrite "*RST" None :: trace w) "*IDN?" = inr reply ->
  split_on "," reply = f0 :: f1 :: f2 :: more ->
  exists w',
    identify env w = (inr tt, w')
    /\ idns (self w') = Some (f0 :: f1 :: f2 :: more)
    /\ model (self w') = Some f1
    /\ serial_number (self w') = Some f2.
Proof.
  intros Hss Hw Hq Hsplit.
  unfold identify, bind, write, query. rewrite Hss, Hw. simpl.
  rewrite Hss, Hq, Hsplit. simpl.
  eexists. split; [reflexivity|]. repeat split.
Qed.

(** X16: a reply to [*IDN?] with fewer than three fields makes the
    attempt fail with [IndexError]; the identity list is already
    replaced by then, the serial number is not. *)
Theorem identify_short_reply (w : world float) (ss : Session)
    (reply : string) :
  _session (self w) = Some ss ->
  env_write env (trace w) "*RST" = None ->
  env_query env (EvWrite "*RST" None :: trace w) "*IDN?" = inr reply ->
  length (split_on "," reply) < 3 ->
  exists w',
    identify env w = (inl (Exn IndexError "list index out of range"), w')
    /\ idns (self w') = Some (split_on "," reply)
    /\ serial_number (self w') = serial_number (self w).
Proof.
  intros Hss Hw Hq Hlen.
  unfold identify, bind, write, query. rewrite Hss, Hw. simpl.
  rewrite Hss, Hq.
  destruct (split_on "," reply) as [|f0 [|f1 [|f2 more]]]; simpl in *;
    try lia; eexists; (split; [reflexivity|]); split; reflexivity.
Qed.

(** X17: when the first reset and identity query succeed [open] does
    not sleep and does not retry, whatever the retry delay is. *)
Theorem open_first_try (retry_delay : float) (w w1 w2 : world float) :
  open_session env w = (inr tt, w1) ->
  identify env w1 = (inr tt, w2) ->
  open F env retry_delay w = (inr tt, snd (report_serial w2)).
Proof.
  intros Hsess Hid.
  unfold open, try_except, bind, try_finally. rewrite Hsess, Hid.
  pose proof (SmuRunFacts.report_serial_returns float w2) as Hr.
  destruct (report_serial w2) as [r w3]. simpl in *. now subst r.
Qed.

(** X18: with a negative retry delay a failed first attempt is not
    retried: the sleep raises, the serial number check still runs, and
    [open] raises its connection error. *)
Theorem open_negative_delay (retry_delay : float) (w w1 w2 : world float)
    (e1 : exn) :
  open_session env w = (inr tt, w1) ->
  identify env w1 = (inl e1, w2) ->
  fl_negative F retry_delay = true ->
  open F env retry_delay w
  = (inl (Exn Exception connect_error),
     record (EvLog LogException connect_error) (snd (report_serial w2))).
Proof.
  intros Hsess Hid Hneg.
  unfold open, try_except, bind, try_finally. rewrite Hsess, Hid.
  assert (Hraises : exists e, sleep_error F retry_delay = Some e).
  { unfold sleep_error. rewrite Hneg.
    destruct (fl_is_nan F retry_delay); [eauto|].
    destruct (fl_overflows F retry_delay); eauto. }
  destruct Hraises as [e He]. unfold sleep. rewrite He. unfold raise.
  pose proof (SmuRunFacts.report_serial_returns float w2) as Hr.
  destruct (report_serial w2) as [r w3]. simpl in *. subst r.
  reflexivity.
Qed.

End WithInstrument.
End OpenFacts.

(** ** keysight_smu.py: sourcing, measuring, resetting *)

Module SequenceFacts.
Import PyStr PyStrFacts Smu SmuOps.

Section WithInstrument.
Context (float : Type) (F : FloatModel float) (nz : float -> bool)
        (env : Env float).

(** *** One step of a method body *)

Lemma run_write {A} (ss : Session) (cmd : string) (k : unit -> M float A)
    (w : world float) :
  _session (self w) = Some ss ->
  env_write env (trace w) cmd = None ->
  bind (write env cmd) k w = k tt (record (EvWrite cmd None) w).
Proof. intros Hss Hw. unfold bind, write. now rewrite Hss, Hw. Qed.

Lemma run_query {A} (ss : Session) (cmd reply : string)
    (k : string -> M float A) (w : world float) :
  _session (self w) = Some ss ->
  env_query env (trace w) cmd = inr reply ->
  bind (query env cmd) k w = k reply (record (EvQuery cmd (inr reply)) w).
Proof. intros Hss Hq. unfold bind, query. now rewrite Hss, Hq. Qed.

Lemma run_sleep {A} (seconds : float) (k : unit -> M float A)
    (w : world float) :
  sleep_error F seconds = None ->
  bind (sleep F seconds) k w = k tt (record (EvSleep seconds) w).
Proof. intros Hs. unfold bind, sleep. now rewrite Hs. Qed.

(** The sleep of a literal within range that is not negative is
    accepted. *)
Lemma literal_sleeps (q : Q) :
  Qle_bool (- (9000000000 # 1)) q && Qle_bool q (9000000000 # 1) = true ->
  fl_negative F (fl_of_Q F q) = false ->
  sleep_error F (fl_of_Q F q) = None.
Proof.
  intros Hq Hneg. unfold sleep_error.
  now rewrite fl_literal_not_nan, (fl_literal_in_range F q Hq), Hneg.
Qed.

Lemma run_check {A} (ss : Session) (id : string) (k : bool -> M float A)
    (w : world float) :
  _session (self w) = Some ss ->
  env_query env (trace w) ":SYST:ERR:CODE:ALL?" = inr no_error ->
  bind (check env id) k w
  = k false (record (EvQuery ":SYST:ERR:CODE:ALL?" (inr no_error)) w).
Proof.
  intros Hss Hq. unfold check, bind, query. now rewrite Hss, Hq.
Qed.

Lemma run_check_fault {A} (ss : Session) (id stat : string)
    (k : bool -> M float A) (w : world float) :
  _session (self w) = Some ss ->
  env_query env (trace w) ":SYST:ERR:CODE:ALL?" = inr stat ->
  stat <> no_error ->
  bind (check env id) k w
  = (inl (Exn ValueError ("SCPI error " +:+ stat +:+ "  " +:+ id)),
     record (EvLog LogInfo ("SCPI error: " +:+ stat +:+ "   " +:+ id))
       (record (EvPrint (id +:+ " " +:+ str_opt (model (self w))))
          (record (EvQuery ":SYST:ERR:CODE:ALL?" (inr stat)) w))).
Proof.
  intros Hss Hq Hstat. unfold check, bind, query. rewrite Hss, Hq.
  rewrite (SmuFacts.err_check_fault float stat id _ Hstat). reflexivity.
Qed.

Lemma run_write_closed {A} (cmd : string) (k : unit -> M float A)
    (w : world float) :
  _session (self w) = None ->
  bind (write env cmd) k w = (inl (no_attribute "write"), w).
Proof. intros Hss. unfold bind, write. now rewrite Hss. Qed.

Lemma run_query_closed {A} (cmd : string) (k : string -> M float A)
    (w : world float) :
  _session (self w) = None ->
  bind (query env cmd) k w = (inl (no_attribute "query"), w).
Proof. intros Hss. unfold bind, query. now rewrite Hss. Qed.

Lemma run_check_closed {A} (id : string) (k : bool -> M float A)
    (w : world float) :
  _session (self w) = None ->
  bind (check env id) k w = (inl (no_attribute "query"), w).
Proof. intros Hss. unfold check, bind, query. now rewrite Hss. Qed.

Lemma occurs_in_app_r (x pre s : string) :
  occurs_in x s -> occurs_in x (pre +:+ s).
Proof.
  intros [a [b ->]]. exists (pre +:+ a), b. now rewrite app_assoc.
Qed.

Lemma occurs_in_app_l (x s post : string) :
  occurs_in x s -> occurs_in x (s +:+ post).
Proof.
  intros [a [b ->]]. exists a, (b +:+ post). now rewrite !app_assoc.
Qed.

Lemma occurs_in_self (x : string) : occurs_in x x.
Proof. exists "", "". now rewrite app_empty_r. Qed.

End WithInstrument.

(** Run the next statement of a method body on an open session. *)
Ltac step Hss Hacc :=
  cbv beta;
  first
    [ erewrite run_write by (simpl; first [exact Hss | apply Hacc])
    | erewrite run_check by (simpl; first [exact Hss | eauto])
    | erewrite run_query by (simpl; first [exact Hss | eauto])
    | erewrite run_sleep
        by (first [eassumption
                  | apply literal_sleeps; [reflexivity | eassumption]]) ].

Section Sequences.
Context (float : Type) (F : FloatModel float) (nz : float -> bool)
        (env : Env float).

(** X19: on an instrument that takes every command and reports no
    error, [reset] switches channel 1 off, then channel 2, then sends
    [*RST], and leaves the object as it was. *)
Theorem reset_sequence (w : world float) (ss : Session) :
  _session (self w) = Some ss ->
  accepts env ->
  no_fault env ->
  fl_negative F (fl_of_Q F (25 # 100)) = false ->
  exists w',
    reset F env w = (inr tt, w')
    /\ self w' = self w
    /\ written (trace w')
       = written (trace w)
           ++ [":OUTP1:STAT OFF"; ":OUTP2:STAT OFF"; "*RST"].
Proof.
  intros Hss Hacc Hnf Hsleep.
  unfold reset, bind at 1, get. rewrite Hss.
  unfold for_each, channel_off. cbv zeta.
  unfold bind at 1. unfold bind at 1.
  step Hss Hacc. step Hss Hacc. step Hss Hacc.
  unfold ret at 1. unfold bind at 1.
  step Hss Hacc. step Hss Hacc. step Hss Hacc.
  unfold ret at 1. unfold ret at 1.
  unfold write. simpl. rewrite Hss, Hacc.
  eexists. split; [reflexivity|]. split; [reflexivity|].
  simpl. rewrite <- !List.app_assoc. reflexivity.
Qed.

(** X20: [reset] stops at the first fault: when the instrument reports
    an error after channel 1 was switched off, [reset] raises, channel
    2 is not switched off and [*RST] is not sent. *)
Theorem reset_stops_at_fault (w : world float) (ss : Session)
    (stat : string) :
  _session (self w) = Some ss ->
  accepts env ->
  answers env ":SYST:ERR:CODE:ALL?" stat ->
  stat <> no_error ->
  fl_negative F (fl_of_Q F (25 # 100)) = false ->
  exists msg w',
    reset F env w = (inl (Exn ValueError msg), w')
    /\ occurs_in stat msg
    /\ occurs_in "channel_off" msg
    /\ written (trace w') = written (trace w) ++ [":OUTP1:STAT OFF"].
Proof.
  intros Hss Hacc Hst Hne Hsleep.
  unfold reset, bind at 1, get. rewrite Hss.
  unfold for_each, channel_off. cbv zeta.
  unfold bind at 1. unfold bind at 1.
  step Hss Hacc. step Hss Hacc.
  erewrite run_check_fault by (simpl; first [exact Hss | apply Hst | exact Hne]).
  eexists _, _. split; [reflexivity|].
  split; [apply occurs_in_middle|].
  split; [rewrite <- !app_assoc; apply occurs_in_end | reflexivity].
Qed.

(** X21: without range, 4-wire, aperture or automatic aperture (a
    range or aperture of zero counts as not given) and with a [settle]
    that [time.sleep] accepts, [smu_meas] writes nothing to the
    instrument: it sleeps [settle], queries the voltage and then the
    current, and returns the two replies as floats. *)
Theorem smu_meas_plain (chan : channel) (settle : float)
    (curr_range aper_val : option float) (w : world float) (ss : Session)
    (rv ri : string) (v i : float) :
  _session (self w) = Some ss ->
  (forall r, curr_range = Some r -> nz r = false) ->
  (forall a, aper_val = Some a -> nz a = false) ->
  sleep_error F settle = None ->
  answers env (":MEAS:VOLT? (@" +:+ channel_str chan +:+ ")") rv ->
  answers env (":MEAS:CURR? (@" +:+ channel_str chan +:+ ")") ri ->
  fl_parse F rv = Some v ->
  fl_parse F ri = Some i ->
  smu_meas F nz env chan settle curr_range false aper_val false w
  = (inr (v, i),
     record (EvQuery (":MEAS:CURR? (@" +:+ channel_str chan +:+ ")") (inr ri))
       (record (EvQuery (":MEAS:VOLT? (@" +:+ channel_str chan +:+ ")")
                        (inr rv))
          (record (EvSleep settle) w))).
Proof.
  intros Hss Hr Ha Hsettle Hv Hi Hpv Hpi.
  unfold smu_meas. cbv zeta.
  assert (Hrange : match curr_range with
                   | Some r =>
                       if nz r
                       then write env (":SENS" +:+ channel_str chan
                                         +:+ ":CURR:DC:RANG:UPP "
                                         +:+ fl_repr F r)
                       else ret tt
                   | None => ret tt
                   end = ret tt).
  { destruct curr_range as [r|]; [|reflexivity]. now rewrite (Hr r eq_refl). }
  assert (Haper : match aper_val with
                  | Some a =>
                      if nz a
                      then write env (":SENS" +:+ channel_str chan
                                        +:+ ":CURR:DC:APER " +:+ fl_repr F a)
                      else ret tt
                  | None => ret tt
                  end = ret tt).
  { destruct aper_val as [a|]; [|reflexivity]. now rewrite (Ha a eq_refl). }
  rewrite Hrange, Haper.
  unfold bind at 1, ret at 1. unfold bind at 1, ret at 1.
  unfold bind at 1, ret at 1.
  erewrite run_sleep by exact Hsettle.
  erewrite run_query by (simpl; first [exact Hss | apply Hv]).
  erewrite run_query by (simpl; first [exact Hss | apply Hi]).
  unfold float_of, bind. rewrite Hpv, Hpi. reflexivity.
Qed.

(** X22: [source_dcv] checks for a fault before it switches the output
    on: when the instrument reports an error after the level was
    programmed, [source_dcv] raises with the tag [source_dcv_0], and
    only the mode, the level and the shape were written. *)
Theorem source_dcv_fault (chan : channel) (volts comply : float)
    (w : world float) (ss : Session) (stat : string) :
  _session (self w) = Some ss ->
  accepts env ->
  answers env ":SYST:ERR:CODE:ALL?" stat ->
  stat <> no_error ->
  exists w',
    source_dcv F nz env chan volts comply w
    = (inl (Exn ValueError
              ("SCPI error " +:+ stat +:+ "  " +:+ "source_dcv_0")), w')
    /\ written (trace w')
       = written (trace w)
           ++ [":SOUR" +:+ channel_str chan +:+ ":FUNC:MODE  VOLT";
               ":SOUR" +:+ channel_str chan +:+ ":VOLT:LEV:IMM "
                 +:+ fl_repr F volts;
               ":SOUR" +:+ channel_str chan +:+ ":FUNC:SHAP DC"].
Proof.
  intros Hss Hacc Hst Hne.
  unfold source_dcv. cbv zeta.
  step Hss Hacc. step Hss Hacc. step Hss Hacc.
  erewrite run_check_fault by (simpl; first [exact Hss | apply Hst | exact Hne]).
  eexists. split; [reflexivity|].
  simpl. rewrite <- !List.app_assoc. reflexivity.
Qed.

(** X23: [source_dci] switches the output on and starts the transition
    before any fault is looked at: the two error replies read on the
    way are dropped, so when the instrument reports an error throughout
    [source_dci] raises only at its one check, tagged [source_dc1],
    with the output already on. *)
Theorem source_dci_fault (chan : channel) (amps v_comply : float)
    (w : world float) (ss : Session) (stat : string) :
  _session (self w) = Some ss ->
  accepts env ->
  answers env ":SYST:ERR:CODE:ALL?" stat ->
  stat <> no_error ->
  fl_negative F (fl_of_Q F (5 # 100)) = false ->
  exists w',
    source_dci F nz env chan amps v_comply w
    = (inl (Exn ValueError
              ("SCPI error " +:+ stat +:+ "  " +:+ "source_dc1")), w')
    /\ written (trace w')
       = written (trace w)
           ++ [":SOUR" +:+ channel_str chan +:+ ":FUNC:MODE  CURR";
               ":SOUR" +:+ channel_str chan +:+ ":CURR:LEV:IMM "
                 +:+ fl_repr F amps;
               ":SOUR" +:+ channel_str chan +:+ ":FUNC:SHAP DC";
               ":SOUR" +:+ channel_str chan +:+ ":VOLT:MODE FIX";
               ":SENS" +:+ channel_str chan +:+ ":VOLT:PROT "
                 +:+ fl_repr F v_comply;
               ":OUTP" +:+ channel_str chan +:+ ":STAT ON";
               ":INIT:IMM:TRAN (@" +:+ channel_str chan +:+ ")"].
Proof.
  intros Hss Hacc Hst Hne Hsleep.
  unfold source_dci. cbv zeta.
  do 5 step Hss Hacc.
  erewrite run_query by (simpl; first [exact Hss | apply Hst]).
  do 2 step Hss Hacc.
  erewrite run_query by (simpl; first [exact Hss | apply Hst]).
  erewrite run_sleep by (apply literal_sleeps; [reflexivity | exact Hsleep]).
  erewrite run_check_fault by (simpl; first [exact Hss | apply Hst | exact Hne]).
  eexists. split; [reflexivity|].
  simpl. rewrite <- !List.app_assoc. reflexivity.
Qed.

(** X24: on an instrument that answers and reports no error,
    [fetch_vi] returns the voltages first and the currents second,
    although it fetches the currents first: the queries are, in this
    order, the currents, the error queue, the voltages, the error
    queue. Nothing is written. *)
Theorem fetch_vi_pairs (chan : channel) (w : world float) (ss : Session)
    (rv ri : string) (vs cs : list float) :
  _session (self w) = Some ss ->
  no_fault env ->
  answers env (":FETC:ARR:VOLT? (@" +:+ channel_str chan +:+ ")") rv ->
  answers env (":FETC:ARR:CURR? (@" +:+ channel_str chan +:+ ")") ri ->
  parse_all (fl_parse F) (split_on "," rv) = Some vs ->
  parse_all (fl_parse F) (split_on "," ri) = Some cs ->
  exists w',
    fetch_vi F env chan w = (inr (vs, cs), w')
    /\ trace w'
       = EvQuery ":SYST:ERR:CODE:ALL?" (inr no_error)
           :: EvQuery (":FETC:ARR:VOLT? (@" +:+ channel_str chan +:+ ")")
                      (inr rv)
           :: EvQuery ":SYST:ERR:CODE:ALL?" (inr no_error)
           :: EvQuery (":FETC:ARR:CURR? (@" +:+ channel_str chan +:+ ")")
                      (inr ri)
           :: trace w
    /\ self w' = self w.
Proof.
  intros Hss Hnf Hv Hi Hpv Hpi.
  unfold fetch_vi. cbv zeta.
  erewrite run_query by (simpl; first [exact Hss | apply Hi]).
  erewrite run_check by (simpl; first [exact Hss | apply Hnf]).
  unfold floats_of at 1. rewrite Hpi. unfold bind at 1, ret at 1.
  erewrite run_query by (simpl; first [exact Hss | apply Hv]).
  unfold floats_of at 1. rewrite Hpv. unfold bind at 1, ret at 1.
  erewrite run_check by (simpl; first [exact Hss | apply Hnf]).
  eexists. split; [reflexivity|]. split; reflexivity.
Qed.

(** X25: on an object without session every operation that talks to
    the instrument raises [AttributeError] before anything is sent,
    slept or logged, and [reset] does nothing at all. *)
Theorem closed_session (w : world float) (chan : channel) (a b : float)
    (scan : ScanSettings float) (curr_range : option float)
    (four_wire : bool) (v_list : list float) :
  _session (self w) = None ->
  reset F env w = (inr tt, w)
  /\ channel_off F env chan w = (inl (no_attribute "write"), w)
  /\ source_dci F nz env chan a b w = (inl (no_attribute "write"), w)
  /\ source_dcv F nz env chan a b w = (inl (no_attribute "write"), w)
  /\ initsv_vidaq F nz env scan chan curr_range four_wire w
     = (inl (no_attribute "query"), w)
  /\ fetch_vi F env chan w = (inl (no_attribute "query"), w)
  /\ err_query env w = (inl (no_attribute "query"), w)
  /\ two_channel_qst F env v_list a w = (inl (no_attribute "write"), w)
  /\ identify env w = (inl (no_attribute "write"), w).
Proof.
  intros Hss. repeat split.
  - unfold reset, bind, get. now rewrite Hss.
  - unfold channel_off. cbv zeta. now rewrite run_write_closed.
  - unfold source_dci. cbv zeta. now rewrite run_write_closed.
  - unfold source_dcv. cbv zeta. now rewrite run_write_closed.
  - unfold initsv_vidaq. cbv zeta. now rewrite run_check_closed.
  - unfold fetch_vi. cbv zeta. now rewrite run_query_closed.
  - unfold err_query, query. now rewrite Hss.
  - unfold two_channel_qst, qst_start. cbv zeta.
    unfold bind at 1. now rewrite run_write_closed.
  - unfold identify. now rewrite run_write_closed.
Qed.

(** [_svmi] turns every failure of its body into a plain
    [Exception] whose message is [ERROR: ] and the message of the
    failure, after logging it: on an object without session nothing is
    sent and the message names the missing [write]. *)
Theorem svmi_closed (chan : channel) (volts i_limit settle : float)
    (w : world float) :
  _session (self w) = None ->
  channel_str chan = "1" \/ channel_str chan = "2" ->
  _svmi F env chan volts i_limit settle w
  = (inl (Exn Exception
            "ERROR: 'NoneType' object has no attribute 'write'"),
     record (EvLog LogException "Current measurement exception") w).
Proof.
  intros Hss Hch. unfold _svmi.
  assert (Hvalid : String.eqb (channel_str chan) "1"
                   || String.eqb (channel_str chan) "2" = true).
  { destruct Hch as [-> | ->]; reflexivity. }
  rewrite Hvalid. cbv zeta. unfold try_except.
  rewrite run_write_closed by exact Hss. reflexivity.
Qed.

(** X26: a fault at the first check of [_svmi] comes out as an
    [Exception] that carries the status; the limit, the sense settings
    and the level were written by then, the output was not switched
    on. *)
Theorem svmi_fault (chan : channel) (volts i_limit settle : float)
    (w : world float) (ss : Session) (stat : string) :
  _session (self w) = Some ss ->
  channel_str chan = "1" \/ channel_str chan = "2" ->
  accepts env ->
  answers env ":SYST:ERR:CODE:ALL?" stat ->
  stat <> no_error ->
  exists w',
    _svmi F env chan volts i_limit settle w
    = (inl (Exn Exception ("ERROR: " +:+ "SCPI error " +:+ stat +:+ "  ")), w')
    /\ written (trace w')
       = written (trace w)
           ++ [":SENS" +:+ channel_str chan +:+ ":CURR:PROT "
                 +:+ fl_repr F i_limit;
               ":SENS" +:+ channel_str chan +:+ ":REM OFF";
               ":SENS" +:+ channel_str chan +:+ ":FUNC:ON " +:+ dquote
                 +:+ "VOLT" +:+ dquote +:+ "," +:+ dquote +:+ "CURR"
                 +:+ dquote;
               ":SOUR" +:+ channel_str chan +:+ ":VOLT:LEV:IMM "
                 +:+ fl_repr F volts].
Proof.
  intros Hss Hch Hacc Hst Hne. unfold _svmi.
  assert (Hvalid : String.eqb (channel_str chan) "1"
                   || String.eqb (channel_str chan) "2" = true).
  { destruct Hch as [-> | ->]; reflexivity. }
  rewrite Hvalid. cbv zeta. unfold try_except.
  do 4 step Hss Hacc.
  erewrite run_check_fault by (simpl; first [exact Hss | apply Hst | exact Hne]).
  unfold bind, log, emit, raise. simpl.
  eexists. split; [rewrite app_empty_r; reflexivity|].
  simpl. rewrite <- !List.app_assoc. reflexivity.
Qed.

End Sequences.

End SequenceFacts.

(** ** keysight_smu.py: the sweep *)

Module SweepFacts.
Import PyStr PyStrFacts Smu SmuOps.

(** X27: the reshape loses nothing and repeats nothing: reading [k] of
    the reply is found in row [k mod rows] at position [k / rows]. *)
Theorem reshape_F_inverse {A} (rows cols : nat) (flat : list A)
    (arr : list (list A)) (k : nat) :
  reshape_F rows cols flat = Some arr ->
  k < length flat ->
  exists row,
    arr !! (k mod rows) = Some row
    /\ row !! (k / rows) = flat !! k.
Proof.
  intros Harr Hk.
  assert (Hlen : length flat = rows * cols).
  { unfold reshape_F in Harr.
    destruct (Nat.eqb_spec (length flat) (rows * cols)); congruence. }
  assert (Hrows : rows <> 0) by (intros ->; simpl in Hlen; lia).
  destruct (SmuRunFacts.reshape_F_rows rows cols flat Hlen)
    as [arr' [Harr' [_ Hspec]]].
  rewrite Harr in Harr'. injection Harr' as <-.
  destruct (Hspec (k mod rows)) as [row [Hrow [_ Hcol]]].
  { now apply Nat.mod_upper_bound. }
  exists row. split; [exact Hrow|].
  rewrite Hcol.
  - f_equal. rewrite (Nat.div_mod_eq k rows) at 3. lia.
  - apply Nat.Div0.div_lt_upper_bound. lia.
Qed.

(** The two list arguments of lines 337-342: one [0.0] per voltage
    separated by commas, and the formatted voltages separated by a
    comma and a blank. *)
Lemma qst_list_arguments {float} (F : FloatModel float)
    (v_list : list float) :
  drop_last (fold_left (fun i_str _ => i_str +:+ "0.0,") v_list "")
  = join "," (map (fun _ => "0.0") v_list)
  /\ strip_ends ("[" +:+ join ", " (map (fl_repr F) v_list) +:+ "]")
     = join ", " (map (fl_repr F) v_list).
Proof.
  split.
  - assert (Hfrom : forall (l : list float) (acc : string),
             fold_left (fun i_str _ => i_str +:+ "0.0,") l acc
             = acc +:+ fold_left (fun i_str _ => i_str +:+ "0.0,") l "").
    { induction l as [|x l IH]; intros acc; simpl.
      - now rewrite app_empty_r.
      - rewrite IH, (IH ("" +:+ "0.0,")), app_empty_l, app_assoc.
        reflexivity. }
    induction v_list as [|x l IH]; [reflexivity|].
    simpl fold_left. rewrite Hfrom, app_empty_l.
    destruct l as [|y l]; [reflexivity|].
    rewrite MdMoreFacts.drop_last_app.
    + rewrite IH. reflexivity.
    + simpl fold_left. rewrite Hfrom. discriminate.
  - unfold strip_ends. rewrite app_cons, app_empty_l.
    apply (drop_last_snoc _ "]").
Qed.

Section WithInstrument.
Context (float : Type) (F : FloatModel float) (env : Env float).

(** X28: what [two_channel_qst] sends before it sleeps, on an
    instrument that takes every command, answers the two list queries
    and reports no error: channel 1 is programmed with the formatted
    voltages separated by a comma and a blank, channel 2 with one
    [0.0] per voltage separated by commas, and the trigger count is
    the length of the list. *)
Theorem qst_start_commands (v_list : list float) (aperature : float)
    (w : world float) (ss : Session) (r1 r2 : string) :
  _session (self w) = Some ss ->
  accepts env ->
  no_fault env ->
  answers env "SOUR1:LIST:VOLT?" r1 ->
  answers env "SOUR2:LIST:CURR?" r2 ->
  sleep_error F (fl_mul F (fl_of_Q F (inject_Z (Z.of_nat (length v_list))))
                       aperature) = None ->
  let aper := fl_repr F (fl_sub F aperature (fl_of_Q F (1 # 100))) in
  let sense := dquote +:+ "VOLT" +:+ dquote +:+ "," +:+ dquote +:+ "CURR"
                 +:+ dquote in
  exists w',
    qst_start F env v_list aperature w = (inr tt, w')
    /\ written (trace w')
       = written (trace w)
           ++ [":sour1:func:mode volt";
               ":sour2:func:mode curr";
               "FORM:ELEM:SENS VOLT,CURR";
               ":sour1:list:volt " +:+ join ", " (map (fl_repr F) v_list);
               ":sour1:volt:mode list";
               ":sour2:list:curr " +:+ join "," (map (fun _ => "0.0") v_list);
               ":sour2:curr:mode list";
               ":SENS1:CURR:PROT 0.2";
               ":SENS2:VOLT:PROT 10.0";
               ":SENS1:FUNC " +:+ sense;
               ":SENS2:FUNC " +:+ sense;
               ":SENS1:CURR:APER " +:+ aper;
               ":SENS2:CURR:APER " +:+ aper;
               ":SENS1:VOLT:APER " +:+ aper;
               ":SENS2:VOLT:APER " +:+ aper;
               ":TRIG:SOUR TIM";
               ":TRIG:TIM " +:+ fl_repr F aperature;
               ":TRIG:COUNT " +:+ str_of_N (N.of_nat (length v_list));
               ":OUTP1 ON";
               ":OUTP2 ON";
               ":INIT"].
Proof.
  intros Hss Hacc Hnf Hq1 Hq2 Hsleep aper sense.
  destruct (qst_list_arguments F v_list) as [Hi Hv].
  unfold qst_start. cbv zeta. rewrite Hi, Hv.
  do 7 SequenceFacts.step Hss Hacc.
  erewrite SequenceFacts.run_query by (simpl; first [exact Hss | apply Hq1]).
  erewrite SequenceFacts.run_query by (simpl; first [exact Hss | apply Hq2]).
  do 22 SequenceFacts.step Hss Hacc.
  unfold sleep. rewrite Hsleep.
  eexists. split; [reflexivity|].
  simpl. rewrite <- !List.app_assoc. reflexivity.
Qed.

(** X29: the length of the rows comes from the reply, not from the
    voltage list: whatever the length of the list, a reply of [4*M]
    readings is returned as 4 rows of length [M]. *)
Theorem qst_rows_follow_reply (v_list : list float) (aperature : float)
    (w w1 : world float) (ss : Session) (reply : string)
    (vals : list float) (M : nat) :
  qst_start F env v_list aperature w = (inr tt, w1) ->
  _session (self w1) = Some ss ->
  env_query env (trace w1) "FETC:ARR? (@1,2)" = inr reply ->
  parse_all (fl_parse F) (split_on "," reply) = Some vals ->
  length vals = 4 * M ->
  (forall h, env_query env h ":SYST:ERR:CODE:ALL?" = inr no_error) ->
  exists arr w',
    two_channel_qst F env v_list aperature w = (inr arr, w')
    /\ length arr = 4
    /\ forall row, row ∈ arr -> length row = M.
Proof.
  intros Hstart Hss Hfetch Hparse Hlen Hstat.
  destruct (SmuRunFacts.reshape_F_rows 4 M vals Hlen) as [arr [Harr [Hl Hrows]]].
  exists arr. eexists. split; [|split; [exact Hl|]].
  - unfold two_channel_qst, bind. rewrite Hstart.
    unfold qst_fetch, bind, query. rewrite Hss, Hfetch.
    unfold print, emit, floats_of. rewrite Hparse. unfold ret.
    rewrite Hlen, Nat.mul_comm, Nat.div_mul by lia.
    rewrite Harr. unfold check, bind, query. simpl.
    rewrite Hss, Hstat. reflexivity.
  - intros row [t Ht]%list_elem_of_lookup.
    assert (Hlt : t < 4).
    { rewrite <- Hl. eapply lookup_lt_Some, Ht. }
    destruct (Hrows t Hlt) as [row' [Hrow' [Hlen' _]]].
    congruence.
Qed.

(** X30: a reply whose number of readings is not a multiple of four
    cannot be reshaped: [two_channel_qst] raises [ValueError] and the
    error queue is not read again. *)
Theorem qst_bad_reading_count (v_list : list float) (aperature : float)
    (w w1 : world float) (ss : Session) (reply : string)
    (vals : list float) :
  qst_start F env v_list aperature w = (inr tt, w1) ->
  _session (self w1) = Some ss ->
  env_query env (trace w1) "FETC:ARR? (@1,2)" = inr reply ->
  parse_all (fl_parse F) (split_on "," reply) = Some vals ->
  length vals mod 4 <> 0 ->
  exists text,
    two_channel_qst F env v_list aperature w
    = (inl (Exn ValueError "cannot reshape array"),
       record (EvPrint text)
         (record (EvQuery "FETC:ARR? (@1,2)" (inr reply)) w1)).
Proof.
  intros Hstart Hss Hfetch Hparse Hmod.
  unfold two_channel_qst, bind. rewrite Hstart.
  unfold qst_fetch, bind, query. rewrite Hss, Hfetch.
  unfold print, emit, floats_of. rewrite Hparse. unfold ret.
  unfold reshape_F.
  destruct (Nat.eqb_spec (length vals) (4 * (length vals / 4))) as [E|_].
  - exfalso. apply Hmod. rewrite E, Nat.mul_comm. apply Nat.Div0.mod_mul.
  - eexists. reflexivity.
Qed.

End WithInstrument.
End SweepFacts.

(** * The further properties on concrete runs *)

Module MoreRuns.
Import PyStr Smu SmuOps Bench Rig.

Lemma separator_shorter_than_header_witness :
  String.length "a|bb|" + 1 = String.length "---|" + length ["a"; "bb"].
Proof.
  apply (MdMoreFacts.separator_shorter_than_header false ["a"; "bb"]
           [["ccc"; "d"]] "a|bb|" "---|"); reflexivity.
Defined.

Lemma read_instr_complete_witness :
  smu_1 !! "serial_number" = Some "MY59002082"
  /\ smu_1 !! "model" = Some "E2902"
  /\ exists w',
       _read_instr smu_1 (start blank_smu) = (inr tt, w')
       /\ serial_number (self w') = Some "MY59002082"
       /\ model (self w') = Some "E2902".
Proof.
  assert (H1 : smu_1 !! "serial_number" = Some "MY59002082")
    by (vm_compute; reflexivity).
  assert (H2 : smu_1 !! "model" = Some "E2902") by (vm_compute; reflexivity).
  split; [exact H1|]. split; [exact H2|].
  destruct (ConfigFacts.read_instr_complete Z smu_1 "MY59002082" "E2902"
              (start blank_smu) H1 H2) as [w' [Hrun [Hs [Hm _]]]].
  exists w'. repeat split; assumption.
Defined.

Lemma read_instr_missing_serial_witness :
  let hw : gmap string string :=
    {[ "ip_address" := "192.168.50.4"; "model" := "E2902" ]} in
  hw !! "serial_number" = None
  /\ exists w',
       _read_instr hw (start seed_smu) = (inr tt, w')
       /\ serial_number (self w') = Some "MY51144607"
       /\ model (self w') = Some "B2902A".
Proof.
  intros hw.
  assert (H1 : hw !! "serial_number" = None) by (vm_compute; reflexivity).
  split; [exact H1|].
  destruct (ConfigFacts.read_instr_missing_serial Z hw (start seed_smu) H1)
    as [w' [Hrun [Hs [Hm _]]]].
  exists w'. repeat split; assumption.
Defined.

Lemma init_never_connects_witness :
  let kwargs :=
    {| hw_config := Some {[ "smu_1" := smu_1 ]};
       unique_identifier := Some "smu_2" |} in
  exists w,
    __init__ whole kwargs = Ready "smu_2" (default_scan whole) w
    /\ _session (self w) = None.
Proof.
  intros kwargs.
  destruct (ConfigFacts.init_never_connects Z whole kwargs
              {[ "smu_1" := smu_1 ]} "smu_2" eq_refl eq_refl)
    as [w [Hrun [Hs _]]].
  exists w. split; assumption.
Defined.

Lemma caldate_errors_witness :
  let kwargs : gmap string string :=
    {[ "calibration_expiration" := "2021-01-12" ]} in
  exists msg w',
    _read_check_caldate (healthy "" "20210101") kwargs (start seed_smu)
    = (inl (Exn ValueError msg), w')
    /\ calDate (self w') = Some "2021-01-12".
Proof.
  intros kwargs.
  destruct (ConfigFacts.caldate_errors Z (healthy "" "20210101") kwargs
              (start seed_smu)) as [_ H].
  destruct (H "2021-01-12") as [msg [w' [Hrun [Hd _]]]];
    [vm_compute; reflexivity | vm_compute; reflexivity |].
  exists msg, w'. split; assumption.
Defined.

Lemma caldate_valid_on_the_day_witness :
  let kwargs : gmap string string :=
    {[ "calibration_expiration" := "20210112" ]} in
  exists w',
    _read_check_caldate (healthy "" "20210112") kwargs (start seed_smu)
    = (inr tt, w')
    /\ calStatus (self w') = Some true
    /\ trace w' = [].
Proof.
  intros kwargs.
  apply (ConfigFacts.caldate_valid_on_the_day Z (healthy "" "20210112")
           kwargs "20210112" (start seed_smu)); vm_compute; reflexivity.
Defined.

Lemma open_session_configured_witness :
  exists w',
    open_session (healthy "" "20210101") (start seed_smu) = (inr tt, w')
    /\ _session (self w') = Some seed_session.
Proof.
  destruct (OpenFacts.open_session_configured Z (healthy "" "20210101")
              "U" "SB0::0x0957::0x8C18::MY51144607::INSTR" (start seed_smu)
              eq_refl eq_refl eq_refl) as [w' [Hrun [Hs _]]].
  exists w'. split; assumption.
Defined.

Lemma open_session_discovers_witness :
  let resources :=
    ["ASRL1::INSTR"; "USB0::0x0957::0x8C18::MY51144607::INSTR"] in
  exists w',
    open_session (bus resources idn_reply) (start unaddressed) = (inr tt, w')
    /\ visa_addr (self w') = Some "USB0::0x0957::0x8C18::MY51144607::INSTR".
Proof.
  intros resources.
  destruct (OpenFacts.open_session_discovers Z (bus resources idn_reply)
              (start unaddressed) "MY51144607"
              "USB0::0x0957::0x8C18::MY51144607::INSTR" resources [])
    as [w' [Hrun [Ha _]]];
    try (vm_compute; reflexivity); [left; reflexivity|].
  exists w'. split; assumption.
Defined.

Lemma open_no_matching_resource_witness :
  exists w',
    open whole (bus ["ASRL1::INSTR"] idn_reply) 1%Z (start unaddressed)
    = (inl (Exn Exception connect_error), w')
    /\ self w' = unaddressed.
Proof.
  apply (OpenFacts.open_no_matching_resource Z whole
           (bus ["ASRL1::INSTR"] idn_reply) 1%Z (start unaddressed)
           "MY51144607" ["ASRL1::INSTR"]);
    try (vm_compute; reflexivity). left; reflexivity.
Defined.

Lemma identify_reads_identity_witness :
  exists w',
    identify (bus [] idn_reply) (start open_smu) = (inr tt, w')
    /\ model (self w') = Some "B2902A"
    /\ serial_number (self w') = Some "MY51144607".
Proof.
  destruct (OpenFacts.identify_reads_identity Z (bus [] idn_reply)
              (start open_smu) seed_session idn_reply
              "Keysight Technologies" "B2902A" "MY51144607" ["3.4"])
    as [w' [Hrun [_ [Hm Hs]]]]; try (vm_compute; reflexivity).
  exists w'. repeat split; assumption.
Defined.

Lemma identify_short_reply_witness :
  length (split_on "," "B2902A") < 3
  /\ exists w',
       identify (bus [] "B2902A") (start open_smu)
       = (inl (Exn IndexError "list index out of range"), w')
       /\ idns (self w') = Some ["B2902A"].
Proof.
  assert (H : length (split_on "," "B2902A") < 3) by (vm_compute; lia).
  split; [exact H|].
  destruct (OpenFacts.identify_short_reply Z (bus [] "B2902A")
              (start open_smu) seed_session "B2902A")
    as [w' [Hrun [Hi _]]]; try (vm_compute; reflexivity); [exact H|].
  exists w'. split; assumption.
Defined.

Lemma open_first_try_witness :
  let env := bus [] idn_reply in
  let w1 := snd (open_session env (start seed_smu)) in
  let w2 := snd (identify env w1) in
  open whole env (-1)%Z (start seed_smu) = (inr tt, snd (report_serial w2)).
Proof.
  intros env w1 w2.
  apply (OpenFacts.open_first_try Z whole env (-1)%Z (start seed_smu) w1 w2);
    vm_compute; reflexivity.
Defined.

Lemma open_negative_delay_witness :
  fl_negative whole (-1)%Z = true
  /\ fst (open whole silent (-1)%Z (start seed_smu))
     = inl (Exn Exception connect_error).
Proof.
  split; [reflexivity|].
  rewrite (OpenFacts.open_negative_delay Z whole silent (-1)%Z
             (start seed_smu)
             (snd (open_session silent (start seed_smu)))
             (snd (identify silent
                     (snd (open_session silent (start seed_smu)))))
             tmo);
    vm_compute; reflexivity.
Defined.

Lemma healthy_accepts (reply today : string) : accepts (healthy reply today).
Proof. intros h cmd. reflexivity. Qed.

Lemma healthy_no_fault (reply today : string) : no_fault (healthy reply today).
Proof. intros h. reflexivity. Qed.

Lemma instrument_accepts (status reply : string) :
  accepts (instrument status reply).
Proof. intros h cmd. reflexivity. Qed.

Lemma instrument_status (status reply : string) :
  answers (instrument status reply) ":SYST:ERR:CODE:ALL?" status.
Proof. intros h. reflexivity. Qed.

Lemma reset_sequence_witness :
  exists w',
    reset whole (healthy "" "20210101") (start open_smu) = (inr tt, w')
    /\ written (trace w') = [":OUTP1:STAT OFF"; ":OUTP2:STAT OFF"; "*RST"].
Proof.
  destruct (SequenceFacts.reset_sequence Z whole (healthy "" "20210101")
              (start open_smu) seed_session eq_refl
              (healthy_accepts _ _) (healthy_no_fault _ _) eq_refl)
    as [w' [Hrun [_ Hw]]].
  exists w'. split; assumption.
Defined.

Lemma reset_stops_at_fault_witness :
  undefined_header <> no_error
  /\ exists msg w',
       reset whole (instrument undefined_header "") (start open_smu)
       = (inl (Exn ValueError msg), w')
       /\ written (trace w') = [":OUTP1:STAT OFF"].
Proof.
  assert (H : undefined_header <> no_error) by discriminate.
  split; [exact H|].
  destruct (SequenceFacts.reset_stops_at_fault Z whole
              (instrument undefined_header "") (start open_smu) seed_session
              undefined_header eq_refl (instrument_accepts _ _)
              (instrument_status _ _) H eq_refl)
    as [msg [w' [Hrun [_ [_ Hw]]]]].
  exists msg, w'. split; assumption.
Defined.

Lemma smu_meas_plain_witness :
  fst (smu_meas whole whole_nonzero (instrument no_error "5") (ChanInt 1)
                0%Z None false (Some 0%Z) false (start open_smu))
  = inr (5%Z, 5%Z).
Proof.
  rewrite (SequenceFacts.smu_meas_plain Z whole whole_nonzero
             (instrument no_error "5") (ChanInt 1) 0%Z None (Some 0%Z)
             (start open_smu) seed_session "5" "5" 5%Z 5%Z);
    try reflexivity.
  - intros r [=].
  - intros a [= <-]. reflexivity.
  - intros h. reflexivity.
  - intros h. reflexivity.
Defined.

Lemma source_dcv_fault_witness :
  exists w',
    source_dcv whole whole_nonzero (instrument undefined_header "5")
               (ChanInt 2) 3%Z 1%Z (start open_smu)
    = (inl (Exn ValueError
              ("SCPI error " +:+ undefined_header +:+ "  source_dcv_0")), w')
    /\ written (trace w')
       = [":SOUR2:FUNC:MODE  VOLT"; ":SOUR2:VOLT:LEV:IMM 3";
          ":SOUR2:FUNC:SHAP DC"].
Proof.
  apply (SequenceFacts.source_dcv_fault Z whole whole_nonzero
           (instrument undefined_header "5") (ChanInt 2) 3%Z 1%Z
           (start open_smu) seed_session undefined_header eq_refl
           (instrument_accepts _ _) (instrument_status _ _)).
  discriminate.
Defined.

Lemma source_dci_fault_witness :
  exists w',
    source_dci whole whole_nonzero (instrument undefined_header "5")
               (ChanInt 2) 3%Z 1%Z (start open_smu)
    = (inl (Exn ValueError
              ("SCPI error " +:+ undefined_header +:+ "  source_dc1")), w')
    /\ written (trace w')
       = [":SOUR2:FUNC:MODE  CURR"; ":SOUR2:CURR:LEV:IMM 3";
          ":SOUR2:FUNC:SHAP DC"; ":SOUR2:VOLT:MODE FIX";
          ":SENS2:VOLT:PROT 1"; ":OUTP2:STAT ON"; ":INIT:IMM:TRAN (@2)"].
Proof.
  apply (SequenceFacts.source_dci_fault Z whole whole_nonzero
           (instrument undefined_header "5") (ChanInt 2) 3%Z 1%Z
           (start open_smu) seed_session undefined_header eq_refl
           (instrument_accepts _ _) (instrument_status _ _));
    [discriminate | reflexivity].
Defined.

Lemma fetch_vi_pairs_witness :
  exists w',
    fetch_vi whole (scope "7,8,9" "1,2,3") (ChanInt 1) (start open_smu)
    = (inr ([1; 2; 3]%Z, [7; 8; 9]%Z), w')
    /\ trace w'
       = [EvQuery ":SYST:ERR:CODE:ALL?" (inr no_error);
          EvQuery ":FETC:ARR:VOLT? (@1)" (inr "1,2,3");
          EvQuery ":SYST:ERR:CODE:ALL?" (inr no_error);
          EvQuery ":FETC:ARR:CURR? (@1)" (inr "7,8,9")].
Proof.
  destruct (SequenceFacts.fetch_vi_pairs Z whole (scope "7,8,9" "1,2,3")
              (ChanInt 1) (start open_smu) seed_session "1,2,3" "7,8,9"
              [1; 2; 3]%Z [7; 8; 9]%Z eq_refl)
    as [w' [Hrun [Hw _]]]; try (intros h; reflexivity);
    try (vm_compute; reflexivity).
  exists w'. split; assumption.
Defined.

Lemma closed_session_witness :
  reset whole silent (start seed_smu) = (inr tt, start seed_smu)
  /\ err_query silent (start seed_smu)
     = (inl (no_attribute "query"), start seed_smu).
Proof.
  destruct (SequenceFacts.closed_session Z whole whole_nonzero silent
              (start seed_smu) (ChanInt 1) 0%Z 0%Z (default_scan whole)
              None false [] eq_refl)
    as [H1 [_ [_ [_ [_ [_ [H2 _]]]]]]].
  split; assumption.
Defined.

Lemma svmi_fault_witness :
  exists w',
    _svmi whole (instrument undefined_header "5") (ChanStr "1") 3%Z 1%Z 0%Z
          (start open_smu)
    = (inl (Exn Exception
              ("ERROR: SCPI error " +:+ undefined_header +:+ "  ")), w')
    /\ length (written (trace w')) = 4.
Proof.
  destruct (SequenceFacts.svmi_fault Z whole
              (instrument undefined_header "5") (ChanStr "1") 3%Z 1%Z 0%Z
              (start open_smu) seed_session undefined_header eq_refl
              (or_introl eq_refl) (instrument_accepts _ _)
              (instrument_status _ _))
    as [w' [Hrun Hw]]; [discriminate|].
  exists w'. split; [exact Hrun|]. rewrite Hw. reflexivity.
Defined.

Lemma reshape_F_inverse_witness :
  exists row,
    [[0; 4]; [1; 5]; [2; 6]; [3; 7]] !! (5 mod 4) = Some row
    /\ row !! (5 / 4) = [0; 1; 2; 3; 4; 5; 6; 7] !! 5.
Proof.
  apply (SweepFacts.reshape_F_inverse 4 2 [0; 1; 2; 3; 4; 5; 6; 7]);
    [reflexivity | simpl; lia].
Defined.

Lemma qst_start_commands_witness :
  let env := healthy "0,1" "20210101" in
  let v_list : list Z := [18; 19; 20]%Z in
  exists w',
    qst_start whole env v_list 1%Z (start open_smu) = (inr tt, w')
    /\ written (trace w') !! 3%nat = Some ":sour1:list:volt 18, 19, 20"
    /\ written (trace w') !! 5%nat = Some ":sour2:list:curr 0.0,0.0,0.0"
    /\ written (trace w') !! 17%nat = Some ":TRIG:COUNT 3".
Proof.
  intros env v_list.
  destruct (SweepFacts.qst_start_commands Z whole env v_list 1%Z
              (start open_smu) seed_session "0,1" "0,1" eq_refl
              (healthy_accepts _ _) (healthy_no_fault _ _))
    as [w' [Hrun Hw]]; try (intros h; reflexivity);
    [vm_compute; reflexivity|].
  exists w'. split; [exact Hrun|]. rewrite Hw.
  repeat split; vm_compute; reflexivity.
Defined.

Lemma qst_rows_follow_reply_witness :
  let env := healthy "0,1,2,3,4,5,6,7" "20210101" in
  let v_list : list Z := [18; 19; 20]%Z in
  exists arr w',
    two_channel_qst whole env v_list 1%Z (start open_smu) = (inr arr, w')
    /\ length arr = 4
    /\ forall row, row ∈ arr -> length row = 2.
Proof.
  intros env v_list.
  apply (SweepFacts.qst_rows_follow_reply Z whole env v_list 1%Z
           (start open_smu) (snd (qst_start whole env v_list 1%Z
                                            (start open_smu)))
           seed_session "0,1,2,3,4,5,6,7" [0; 1; 2; 3; 4; 5; 6; 7]%Z 2);
    vm_compute; reflexivity.
Defined.

Lemma qst_bad_reading_count_witness :
  let env := healthy "0,1,2,3,4,5,6" "20210101" in
  fst (two_channel_qst whole env [18%Z; 19%Z] 1%Z (start open_smu))
  = inl (Exn ValueError "cannot reshape array").
Proof.
  intros env.
  destruct (SweepFacts.qst_bad_reading_count Z whole env [18%Z; 19%Z] 1%Z
              (start open_smu)
              (snd (qst_start whole env [18%Z; 19%Z] 1%Z (start open_smu)))
              seed_session "0,1,2,3,4,5,6" [0; 1; 2; 3; 4; 5; 6]%Z)
    as [text ->]; try (vm_compute; reflexivity).
  vm_compute. discriminate.
Defined.

End MoreRuns.
